(** * SecureDrop source interface and pending-account reaper

    A shallow embedding of [securedrop/source_app/main.py] (the source
    interface views) and [securedrop/management/sources.py] (removal of
    pending source accounts), with the properties of the specification
    stated and proved over it.

    Conventions.
    - Python [int] is [Z]; [str] is [string]; a [dict] keyed by strings
      is a [gmap string _]; a set of identifiers is a [gset string].
    - ORM tables are lists of rows; a commit writes the modified row
      back under its primary key.
    - The Flask session is a [gmap string sval]; the flashed messages
      (which Flask keeps under its own session key) are a separate list.
    - A view is a function from the state before the request to a
      response and the state after it. *)

From Stdlib Require Import ZArith Lia.
From stdpp Require Import gmap strings list fin_maps pretty sorting relations.

Open Scope Z_scope.

#[local] Set Warnings "-clear-no-such-hyp".

(** ** Data model *)

Module Source.
(** Modelled from the spec: the [Source] row of [models.py] (section 3):
    a new row has [pending = True] and [interaction_count = 0]. *)
Record t := mk {
  id : Z;
  uuid : string;
  filesystem_id : string;
  journalist_designation : string;
  pending : bool;
  interaction_count : Z;
  last_updated : option Z
}.

Definition set_interaction_count (n : Z) (s : t) : t :=
  mk (id s) (uuid s) (filesystem_id s) (journalist_designation s)
     (pending s) n (last_updated s).

Definition set_pending (b : bool) (s : t) : t :=
  mk (id s) (uuid s) (filesystem_id s) (journalist_designation s)
     b (interaction_count s) (last_updated s).

Definition set_last_updated (now : Z) (s : t) : t :=
  mk (id s) (uuid s) (filesystem_id s) (journalist_designation s)
     (pending s) (interaction_count s) (Some now).
End Source.

(** Modelled from the spec: the name the storage collaborator
    ([store.py]) gives a saved submission; it encodes the interaction
    count, the kind of content and the journalist's name of the source. *)
Inductive kind := Msg | Doc.

Record Filename := mkFilename {
  seq : Z;
  fkind : kind;
  label : string
}.

Module Submission.
Record t := mk {
  source_id : Z;
  filename : Filename
}.
End Submission.

Module Reply.
(** Modelled from the spec: the [Reply] row of [models.py]. *)
Record t := mk {
  id : Z;
  source_id : Z;
  filename : string;
  deleted_by_source : bool
}.

Definition set_deleted_by_source (b : bool) (r : t) : t :=
  mk (id r) (source_id r) (filename r) b.
End Reply.

(** Values held by the Flask session. *)
Inductive sval :=
| VStr (s : string)
| VBool (b : bool)
| VDict (d : gmap string string).

(** Python truthiness of a session value. *)
Definition truthy (v : sval) : bool :=
  match v with
  | VStr s => negb (String.eqb s "")
  | VBool b => b
  | VDict d => negb (bool_decide (d = ∅))
  end.

(** What is flashed: a translated text or a rendered template. *)
Inductive markup :=
| Text (s : string)
| Template (name : string) (html_contents : option string).

(** A stored file: directory of the source, name, payload. *)
Record StoredFile := mkStoredFile {
  sf_dir : string;
  sf_name : Filename;
  sf_payload : string
}.

(** The state a request runs against. *)
Record State := mkState {
  sources : list Source.t;
  submissions : list Submission.t;
  replies : list Reply.t;
  session : gmap string sval;
  flashes : list (markup * string);
  dirs : gset string;
  files : list StoredFile;
  keys : gset string;
  checksum_queue : list Submission.t;
  logger : list string
}.

Definition with_sources (l : list Source.t) (st : State) : State :=
  mkState l (submissions st) (replies st) (session st) (flashes st)
          (dirs st) (files st) (keys st) (checksum_queue st) (logger st).
Definition with_submissions (l : list Submission.t) (st : State) : State :=
  mkState (sources st) l (replies st) (session st) (flashes st)
          (dirs st) (files st) (keys st) (checksum_queue st) (logger st).
Definition with_replies (l : list Reply.t) (st : State) : State :=
  mkState (sources st) (submissions st) l (session st) (flashes st)
          (dirs st) (files st) (keys st) (checksum_queue st) (logger st).
Definition with_session (m : gmap string sval) (st : State) : State :=
  mkState (sources st) (submissions st) (replies st) m (flashes st)
          (dirs st) (files st) (keys st) (checksum_queue st) (logger st).
Definition with_dirs (d : gset string) (st : State) : State :=
  mkState (sources st) (submissions st) (replies st) (session st) (flashes st)
          d (files st) (keys st) (checksum_queue st) (logger st).
Definition with_files (l : list StoredFile) (st : State) : State :=
  mkState (sources st) (submissions st) (replies st) (session st) (flashes st)
          (dirs st) l (keys st) (checksum_queue st) (logger st).
Definition with_keys (k : gset string) (st : State) : State :=
  mkState (sources st) (submissions st) (replies st) (session st) (flashes st)
          (dirs st) (files st) k (checksum_queue st) (logger st).
Definition with_checksum_queue (q : list Submission.t) (st : State) : State :=
  mkState (sources st) (submissions st) (replies st) (session st) (flashes st)
          (dirs st) (files st) (keys st) q (logger st).

(** [flash(message, category)] *)
Definition flash (m : markup) (category : string) (st : State) : State :=
  mkState (sources st) (submissions st) (replies st) (session st)
          (flashes st ++ [(m, category)])
          (dirs st) (files st) (keys st) (checksum_queue st) (logger st).

(** [current_app.logger.<level>(line)] *)
Definition log (line : string) (st : State) : State :=
  mkState (sources st) (submissions st) (replies st) (session st) (flashes st)
          (dirs st) (files st) (keys st) (checksum_queue st) (logger st ++ [line]).

(** [session[k] = v] and [del session[k]] *)
Definition session_set (k : string) (v : sval) (st : State) : State :=
  with_session (<[k := v]> (session st)) st.
Definition session_del (k : string) (st : State) : State :=
  with_session (delete k (session st)) st.

(** The committed write of a modified row: the row with the same primary
    key is replaced. *)
Definition update_source (s : Source.t) (l : list Source.t) : list Source.t :=
  map (fun r => if Z.eqb (Source.id r) (Source.id s) then s else r) l.

Definition update_reply (x : Reply.t) (l : list Reply.t) : list Reply.t :=
  map (fun r => if Z.eqb (Reply.id r) (Reply.id x) then x else r) l.

(** ** Collaborators

    The views reach the encryption, storage and form layers through
    narrow interfaces; their code is outside the two modules embedded
    here, so they are taken as an interface. *)
Class Collaborators := {
  (** [current_app.crypto_util.hash_codename] *)
  hash_codename : string -> string;
  (** [Source.journalist_filename], computed from the designation *)
  journalist_filename : string -> string;
  (** reading a reply file: [None] is [FileNotFoundError], otherwise the
      ciphertext and the modification time of the file *)
  read_reply : string -> string -> option (string * Z);
  (** [current_app.crypto_util.decrypt]: [None] is [UnicodeDecodeError] *)
  decrypt : string -> string -> option string;
  (** [Source.is_signal_registered] *)
  is_signal_registered : Source.t -> bool;
  (** the token that Flask-WTF draws at random for a session that has
      none when a form is built *)
  new_csrf_token : string;
  (** the exception, if any, that [db.session.delete] followed by
      [db.session.commit] raises for the source with this primary key *)
  db_delete_failure : Z -> option string
}.

Inductive response_exception :=
| KeyError (key : string)
| BadRequestKeyError (key : string)
| TypeError
| FileExistsError (path : string).

(** A reply as the lookup view hands it to the template. *)
Record DecryptedReply := mkDecryptedReply {
  reply : Reply.t;
  decrypted : string;
  date : Z
}.

(** What [lookup] passes to its template, but for the upload setting
    and the empty submission form. *)
Record LookupPage := mkLookupPage {
  page_token : sval;
  page_source_uuid : string;
  page_to_register : bool;
  page_codename : string;
  page_replies : list DecryptedReply;
  page_new_user : option sval
}.

Inductive response :=
| Redirect (endpoint : string)
| RenderGenerate (codename tab_id : string)
| RenderLookup (page : LookupPage)
| RenderLogout
| Abort (code : Z)
| AbortNotOne
| Raised (e : response_exception).

(** The request context [g] that [login_required] sets up. *)
Record G := mkG {
  g_source : Source.t;
  g_filesystem_id : string;
  g_codename : string
}.

(** Modelled from the spec: [source_app.utils.logged_in], whether the
    session carries the logged-in flag. *)
Definition logged_in (st : State) : bool :=
  bool_decide (is_Some (session st !! "logged_in")).

(** [session.get(k, False)] used as a condition. *)
Definition session_get_truthy (k : string) (st : State) : bool :=
  match session st !! k with
  | Some v => truthy v
  | None => false
  end.

(** ** [source_app/main.py] *)

Definition generate (tab_id codename : string) (st : State) : response * State :=
  if logged_in st then
    (Redirect ".lookup",
     flash (Text ("You were redirected because you are already logged in. " +:+
                  "If you want to create a new account, you should log out " +:+
                  "first.")) "notification" st)
  else
    match session st !! "codenames" with
    | Some (VStr _) | Some (VBool _) => (Raised TypeError, st)
    | o =>
        let codenames := match o with Some (VDict d) => d | _ => ∅ end in
        let codenames := <[tab_id := codename]> codenames in
        let st := session_set "codenames" (VDict codenames) st in
        let st := session_set "new_user" (VBool true) st in
        (RenderGenerate codename tab_id, st)
    end.

Record CreateRequest := mkCreateRequest {
  form_tab_id : option string;
  (** [crypto_util.display_id()] and the [Source] constructor: [None]
      is the [ValueError] the view catches *)
  display_id : option string;
  new_uuid : string
}.

(** The primary key the database gives the next inserted row. *)
Definition fresh_id (l : list Source.t) : Z :=
  1 + foldr (fun s m => Z.max (Source.id s) m) 0 l.

(** Modelled from the spec: the unique constraint on [filesystem_id]
    that makes the commit of a new [Source] raise [IntegrityError]. *)
Definition duplicate_filesystem_id (fsid : string) (l : list Source.t) : bool :=
  existsb (fun s => String.eqb (Source.filesystem_id s) fsid) l.

Section Views.
Context `{Collaborators}.

Definition create (req : CreateRequest) (st : State) : response * State :=
  if session_get_truthy "logged_in" st then
    (Redirect ".lookup",
     flash (Text ("You are already logged in. Please verify your codename above as it " +:+
                  "may differ from the one displayed on the previous page."))
           "notification" st)
  else
    match form_tab_id req with
    | None => (Raised (BadRequestKeyError "tab_id"), st)
    | Some tab_id =>
      match session st !! "codenames" with
      | None => (Raised (KeyError "codenames"), st)
      | Some (VStr _) | Some (VBool _) => (Raised TypeError, st)
      | Some (VDict d) =>
        match d !! tab_id with
        | None => (Raised (KeyError tab_id), st)
        | Some codename =>
          let st := session_set "codename" (VStr codename) st in
          let st := session_del "codenames" st in
          let filesystem_id := hash_codename codename in
          match display_id req with
          | None =>
              let st := log "ValueError" st in
              let st := flash (Text ("There was a temporary problem creating your account. " +:+
                                     "Please try again.")) "error" st in
              (Redirect ".index", st)
          | Some designation =>
              let source :=
                Source.mk (fresh_id (sources st)) (new_uuid req) filesystem_id
                          designation true 0 None in
              (* db.session.add(source); db.session.commit() *)
              if duplicate_filesystem_id filesystem_id (sources st) then
                (* IntegrityError: db.session.rollback() *)
                let st := log "Attempt to create a source with duplicate codename: IntegrityError" st in
                let st := session_del "codename" st in
                let st := session_del "logged_in" st in
                (Abort 500, st)
              else
                let st := with_sources (sources st ++ [source]) st in
                if bool_decide (filesystem_id ∈ dirs st) then
                  (Raised (FileExistsError filesystem_id), st)
                else
                  let st := with_dirs ({[filesystem_id]} ∪ dirs st) st in
                  let st := session_set "logged_in" (VBool true) st in
                  (Redirect ".lookup", st)
          end
        end
      end
    end.

(** Stable sort by decreasing key, as [list.sort(key=..., reverse=True)]
    and [ORDER BY ... DESC]. *)
Fixpoint insert_desc {A : Type} (key : A -> Z) (x : A) (l : list A) : list A :=
  match l with
  | [] => [x]
  | y :: l' => if Z.leb (key y) (key x) then x :: y :: l'
               else y :: insert_desc key x l'
  end.

Definition sort_desc {A : Type} (key : A -> Z) (l : list A) : list A :=
  foldr (insert_desc key) [] l.

(** The body of the loop of [lookup] for one reply: the reply ready for
    the template, or the line logged when it is skipped. *)
Definition read_and_decrypt (g : G) (r : Reply.t) : DecryptedReply + string :=
  match read_reply (g_filesystem_id g) (Reply.filename r) with
  | None => inr ("Reply file missing: " +:+ Reply.filename r)
  | Some (contents, mtime) =>
      match decrypt (g_codename g) contents with
      | None => inr ("Could not decode reply " +:+ Reply.filename r)
      | Some plain => inl (mkDecryptedReply r plain mtime)
      end
  end.

Fixpoint lookup_loop (g : G) (source_inbox : list Reply.t)
         (acc : list DecryptedReply) (st : State) : list DecryptedReply * State :=
  match source_inbox with
  | [] => (acc, st)
  | r :: rest =>
      match read_and_decrypt g r with
      | inl d => lookup_loop g rest (acc ++ [d]) st
      | inr line => lookup_loop g rest acc (log line st)
      end
  end.

(** Building a form ([SubmissionForm()], a [FlaskForm]): the session
    gets a CSRF token when it has none. *)
Definition build_form (st : State) : State :=
  with_session
    (match session st !! "csrf_token" with
     | Some _ => session st
     | None => <["csrf_token" := VStr new_csrf_token]> (session st)
     end) st.

Definition source_inbox (g : G) (st : State) : list Reply.t :=
  List.filter (fun r => Z.eqb (Reply.source_id r) (Source.id (g_source g))
                        && negb (Reply.deleted_by_source r))
              (replies st).

Definition lookup (g : G) (st : State) : response * State :=
  let '(shown, st) := lookup_loop g (source_inbox g st) [] st in
  let shown := sort_desc date shown in
  let st :=
    if bool_decide (g_filesystem_id g ∈ keys st) then st
    else with_keys ({[g_filesystem_id g]} ∪ keys st) st in
  let registered := is_signal_registered (g_source g) in
  let st := log ("client needs to register still?: " +:+
                 (if registered then "True" else "False")) st in
  match session st !! "token" with
  | None => (Raised (KeyError "token"), st)
  | Some token =>
      let new_user := session st !! "new_user" in
      (* form=SubmissionForm() *)
      let st := build_form st in
      (RenderLookup
         (mkLookupPage token (Source.uuid (g_source g)) (negb registered)
                       (g_codename g) shown new_user), st)
  end.

(** An uploaded file ([werkzeug.FileStorage]); it is truthy when its
    filename is not empty. *)
Record FileStorage := mkFileStorage {
  fs_filename : string;
  fs_stream : string
}.

Record SubmitRequest := mkSubmitRequest {
  (** [form.errors]; [form.validate()] holds when there are none *)
  form_errors : list (string * list string);
  form_msg : option string;
  files_fh : option FileStorage;
  utcnow : Z
}.

(** Modelled from the spec: [storage.save_message_submission] and
    [storage.save_file_submission] of [store.py]: the file is written
    under a name that encodes the count passed in, the kind of content
    and the journalist's name of the source. *)
Definition save_message_submission (filesystem_id : string) (count : Z)
           (journalist_filename : string) (msg : string) (st : State)
  : Filename * State :=
  let fname := mkFilename count Msg journalist_filename in
  (fname, with_files (files st ++ [mkStoredFile filesystem_id fname msg]) st).

Definition save_file_submission (filesystem_id : string) (count : Z)
           (journalist_filename : string) (filename stream : string) (st : State)
  : Filename * State :=
  let fname := mkFilename count Doc journalist_filename in
  (fname, with_files (files st ++ [mkStoredFile filesystem_id fname stream]) st).

Definition str_truthy (s : string) : bool := negb (String.eqb s "").

Definition fh_truthy (fh : option FileStorage) : bool :=
  match fh with
  | Some f => str_truthy (fs_filename f)
  | None => false
  end.

Definition submit (allow_document_uploads : bool) (req : SubmitRequest)
           (g : G) (st : State) : response * State :=
  (* form = SubmissionForm() *)
  let st := build_form st in
  match form_errors req with
  | _ :: _ =>
      (Redirect "main.lookup",
       foldl (fun st error => flash (Text error) "error" st) st
             (concat (map snd (form_errors req))))
  | [] =>
    match form_msg req with
    | None => (Raised (BadRequestKeyError "msg"), st)
    | Some msg =>
      let fh := if allow_document_uploads then files_fh req else None in
      if negb (str_truthy msg || fh_truthy fh) then
        if allow_document_uploads then
          (Redirect "main.lookup",
           flash (Text "You must enter a message or choose a file to submit.") "error" st)
        else
          (Redirect "main.lookup", flash (Text "You must enter a message.") "error" st)
      else
        let source := g_source g in
        let journalist_filename :=
          journalist_filename (Source.journalist_designation source) in
        let first_submission := Z.eqb (Source.interaction_count source) 0 in
        let st :=
          if bool_decide (g_filesystem_id g ∈ dirs st) then st
          else with_dirs ({[g_filesystem_id g]} ∪ dirs st)
                         (log ("Store directory not found for source '" +:+
                    Source.journalist_designation source +:+ "', creating one.") st) in
        let '(source, fnames, st) :=
          if str_truthy msg then
            let source :=
              Source.set_interaction_count (Source.interaction_count source + 1) source in
            let '(fname, st) :=
              save_message_submission (g_filesystem_id g) (Source.interaction_count source)
                                      journalist_filename msg st in
            (source, [fname], st)
          else (source, [], st) in
        let '(source, fnames, st) :=
          match fh with
          | Some f =>
            if str_truthy (fs_filename f) then
              let source :=
                Source.set_interaction_count (Source.interaction_count source + 1) source in
              let '(fname, st) :=
                save_file_submission (g_filesystem_id g) (Source.interaction_count source)
                                     journalist_filename (fs_filename f) (fs_stream f) st in
              (source, fnames ++ [fname], st)
            else (source, fnames, st)
          | None => (source, fnames, st)
          end in
        let st :=
          if first_submission then
            flash (Template "first_submission_flashed_message.html" None) "success" st
          else
            let html_contents :=
              if str_truthy msg && negb (fh_truthy fh) then
                "Thanks! We received your message."
              else if fh_truthy fh && negb (str_truthy msg) then
                "Thanks! We received your document."
              else "Thanks! We received your message and document." in
            flash (Template "next_submission_flashed_message.html" (Some html_contents))
                  "success" st in
        let new_submissions := map (Submission.mk (Source.id source)) fnames in
        let source := Source.set_pending false source in
        let source := Source.set_last_updated (utcnow req) source in
        (* db.session.commit() *)
        let st := with_submissions (submissions st ++ new_submissions) st in
        let st := with_sources (update_source source (sources st)) st in
        let st := with_checksum_queue (checksum_queue st ++ new_submissions) st in
        (Redirect "main.lookup", st)
    end
  end.

(** Modelled from the spec: [models.get_one_or_else]: the one row the
    query yields; with no row or several the failure method is called
    and the operation is aborted. *)
Definition get_one_or_else (rows : list Reply.t) : option Reply.t :=
  match rows with
  | [r] => Some r
  | _ => None
  end.

Definition delete (reply_filename : option string) (g : G) (st : State)
  : response * State :=
  match reply_filename with
  | None => (Raised (BadRequestKeyError "reply_filename"), st)
  | Some name =>
      let query :=
        List.filter (fun r => String.eqb (Reply.filename r) name
                              && Z.eqb (Reply.source_id r) (Source.id (g_source g)))
                    (replies st) in
      match get_one_or_else query with
      | None => (AbortNotOne, log "get_one_or_else" st)
      | Some reply =>
          let reply := Reply.set_deleted_by_source true reply in
          let st := with_replies (update_reply reply (replies st)) st in
          let st := flash (Text "Reply deleted") "notification" st in
          (Redirect ".lookup", st)
      end
  end.

Definition batch_delete (g : G) (st : State) : response * State :=
  let found := source_inbox g st in
  if Nat.eqb (length found) 0 then
    (Redirect ".lookup",
     log "Found no replies when at least one was expected" st)
  else
    let st :=
      foldl (fun st reply =>
               with_replies
                 (update_reply (Reply.set_deleted_by_source true reply) (replies st)) st)
            st found in
    let st := flash (Text "All replies have been deleted") "notification" st in
    (Redirect ".lookup", st).

Definition logout (locale : string) (st : State) : response * State :=
  if logged_in st then
    let st := with_session ∅ st in
    let st := session_set "locale" (VStr locale) st in
    (RenderLogout, st)
  else (Redirect ".index", st).

End Views.

(** ** [management/sources.py] *)

Inductive db_op :=
| DbDelete (id : Z)
| DbCommit
| DbRollback.

(** The state of a run of the management command: the store and key
    ring it works on, what it has printed, and the database operations
    it has issued. *)
Record Run := mkRun {
  run_state : State;
  stdout : list string;
  db_ops : list db_op
}.

Definition print (line : string) (r : Run) : Run :=
  mkRun (run_state r) (stdout r ++ [line]) (db_ops r).

(** Modelled from the spec: [EncryptionManager.delete_source_key_pair]
    of [encryption.py]: the key pair of the source is removed; [None] is
    [GpgKeyNotFoundError], raised when there is no key material. *)
Definition delete_source_key_pair (filesystem_id : string) (st : State) : option State :=
  if bool_decide (filesystem_id ∈ keys st)
  then Some (with_keys (keys st ∖ {[filesystem_id]}) st)
  else None.

(** The integers that SQLite binds as a parameter of a query.  The
    offset of [find_pending_sources] is such a parameter: outside this
    range the query raises [OverflowError] and the command ends before
    it prints anything. *)
Definition sqlite_integer (n : Z) : Prop := - 2 ^ 63 <= n < 2 ^ 63.

Section Management.
Context `{Collaborators}.

(** [keep_most_recent] is an [int], bound as the offset of the query.
    This is the result of the query for an offset that SQLite binds
    ([sqlite_integer]); an offset below zero skips nothing. *)
Definition find_pending_sources (keep_most_recent : Z) (st : State) : list Source.t :=
  drop (Z.to_nat keep_most_recent)
       (sort_desc Source.id (List.filter Source.pending (sources st))).

Definition delete_pending_source (source : Source.t) (r : Run) : Run :=
  if Source.pending source then
    match db_delete_failure (Source.id source) with
    | None =>
        let rows :=
          List.filter (fun s => negb (Z.eqb (Source.id s) (Source.id source)))
                      (sources (run_state r)) in
        mkRun (with_sources rows (run_state r)) (stdout r)
              (db_ops r ++ [DbDelete (Source.id source); DbCommit])
    | Some exc =>
        print ("ERROR: Could not remove pending source: " +:+ exc +:+ ".")
              (mkRun (run_state r) (stdout r)
                     (db_ops r ++ [DbDelete (Source.id source); DbRollback]))
    end
  else r.

(** One turn of the loop of [remove_pending_sources]. *)
Definition remove_one (acc : Run * list Source.t) (source : Source.t)
  : Run * list Source.t :=
  let '(r, deleted) := acc in
  let r :=
    match delete_source_key_pair (Source.filesystem_id source) (run_state r) with
    | Some st => mkRun st (stdout r) (db_ops r)
    | None => (* except GpgKeyNotFoundError: pass *) r
    end in
  let r := delete_pending_source source r in
  (r, deleted ++ [source]).

Definition remove_pending_sources (keep_most_recent : Z) (st : State) : Z * Run :=
  let n := keep_most_recent in
  let found := find_pending_sources n st in
  let r := print ("Found " +:+ pretty (length found) +:+ " pending sources")
                 (mkRun st [] []) in
  let '(r, deleted) := foldl remove_one (r, []) found in
  let r := print ("Deleted " +:+ pretty (length found) +:+ " pending sources") r in
  (0, r).

End Management.

(** ** The system as a transition system *)

(** The largest interaction count encoded in a list of filenames. *)
Fixpoint max_seq (l : list Filename) : option Z :=
  match l with
  | [] => None
  | f :: l' =>
      Some (match max_seq l' with
            | None => seq f
            | Some m => Z.max (seq f) m
            end)
  end.

(** The invariant of a [Source] row. *)
Definition source_ok (s : Source.t) : Prop :=
  0 <= Source.interaction_count s /\
  Source.pending s = Z.eqb (Source.interaction_count s) 0.

Definition store_ok (st : State) : Prop :=
  NoDup (map Source.id (sources st)) /\ Forall source_ok (sources st).

Section System.
Context `{Collaborators}.

(** One operation of the source interface or of the management
    command.  A view that needs a login runs with [g.source] bound to
    a row of the store.  Each operation runs as a whole, one after
    another: a run of the reaper is one step, so a request that falls
    between its query and its loop is not among these steps, and
    neither is [login], whose [Source.login] lies outside the two
    modules. *)
Inductive step : State -> State -> Prop :=
| step_generate tab_id codename st :
    step st (generate tab_id codename st).2
| step_create req st :
    step st (create req st).2
| step_lookup g st :
    g_source g ∈ sources st -> step st (lookup g st).2
| step_submit allow req g st :
    g_source g ∈ sources st -> step st (submit allow req g st).2
| step_delete name g st :
    g_source g ∈ sources st -> step st (delete name g st).2
| step_batch_delete g st :
    g_source g ∈ sources st -> step st (batch_delete g st).2
| step_logout locale st :
    step st (logout locale st).2
| step_remove_pending_sources keep st :
    step st (run_state (remove_pending_sources keep st).2).

(** The states the system reaches from a store without sources. *)
Inductive reachable : State -> Prop :=
| reachable_init st : sources st = [] -> reachable st
| reachable_step st st' : reachable st -> step st st' -> reachable st'.

(** [n] calls of [lookup] in a row: the responses, first call first,
    and the state after the last one. *)
Fixpoint lookups (n : nat) (g : G) (st : State) : list response * State :=
  match n with
  | O => ([], st)
  | S n' =>
      let '(resp, st) := lookup g st in
      let '(rest, st) := lookups n' g st in
      (resp :: rest, st)
  end.

End System.

(** The replies a response shows. *)
Definition shown_replies (resp : response) : list Reply.t :=
  match resp with
  | RenderLookup page => map reply (page_replies page)
  | _ => []
  end.

(** ** Sample data for the examples *)

Module Sample.

Definition collaborators : Collaborators := {|
  hash_codename := fun c => "fs-" +:+ c;
  journalist_filename := fun d => d;
  read_reply := fun _ name => Some ("enc:" +:+ name, 5);
  decrypt := fun _ c => Some c;
  is_signal_registered := fun _ => false;
  new_csrf_token := "5f2b7c";
  db_delete_failure := fun _ => None
|}.

(** As [collaborators], with a database that refuses every deletion. *)
Definition failing_db : Collaborators := {|
  hash_codename := fun c => "fs-" +:+ c;
  journalist_filename := fun d => d;
  read_reply := fun _ name => Some ("enc:" +:+ name, 5);
  decrypt := fun _ c => Some c;
  is_signal_registered := fun _ => false;
  new_csrf_token := "5f2b7c";
  db_delete_failure := fun _ => Some "database is locked"
|}.

Definition empty : State := mkState [] [] [] ∅ [] ∅ [] ∅ [] [].

Definition alice : Source.t :=
  Source.mk 1 "uuid-1" "fs-alpha" "blue sky" true 0 None.

Definition g_alice : G := mkG alice "fs-alpha" "alpha".

(** A store with the pending source [alice], logged in. *)
Definition one_pending : State :=
  mkState [alice] [] [] {["codename" := VStr "alpha"; "logged_in" := VBool true]}
          [] {["fs-alpha"]} [] ∅ [] [].

Definition hidden_reply : Reply.t := Reply.mk 1 1 "1-blue_sky-reply.gpg" true.
Definition open_reply : Reply.t := Reply.mk 2 1 "2-blue_sky-reply.gpg" false.

(** [alice] with two replies, the first already deleted by her. *)
Definition with_inbox : State :=
  mkState [alice] [] [hidden_reply; open_reply]
          {["codename" := VStr "alpha"; "logged_in" := VBool true;
            "token" := VStr "t"]}
          [] {["fs-alpha"]} [] ∅ [] [].

(** A session where the tab ["tabA"] has been shown a codename. *)
Definition one_tab : State :=
  mkState [] [] [] {["codenames" := VDict {["tabA" := "alpha"]}]}
          [] ∅ [] ∅ [] [].

(** A visitor who is not logged in and whose tab holds the codename of
    the existing source [alice]. *)
Definition reused_codename : State :=
  mkState [alice] [] [] {["codenames" := VDict {["tabA" := "alpha"]}]}
          [] {["fs-alpha"]} [] ∅ [] [].

Definition create_from_tabA : CreateRequest :=
  mkCreateRequest (Some "tabA") (Some "blue sky") "uuid-1".

Definition create_without_designation : CreateRequest :=
  mkCreateRequest (Some "tabA") None "uuid-1".

Definition bob : Source.t :=
  Source.mk 2 "uuid-2" "fs-beta" "red sun" true 0 None.

Definition carol : Source.t :=
  Source.mk 3 "uuid-3" "fs-gamma" "old oak" false 2 (Some 1600000000).

(** Two pending sources and one that has submitted twice. *)
Definition three_sources : State :=
  mkState [alice; bob; carol]
          [Submission.mk 3 (mkFilename 1 Msg "old oak");
           Submission.mk 3 (mkFilename 2 Doc "old oak")]
          [] ∅ [] {["fs-alpha"; "fs-beta"; "fs-gamma"]} [] {["fs-gamma"]} [] [].

Definition dave : Source.t :=
  Source.mk 4 "uuid-4" "fs-delta" "wet moss" true 0 None.

(** Three pending sources, not in the order of their keys, and one that
    has submitted twice. *)
Definition four_sources : State :=
  mkState [alice; dave; bob; carol]
          [Submission.mk 3 (mkFilename 1 Msg "old oak");
           Submission.mk 3 (mkFilename 2 Doc "old oak")]
          [] ∅ [] {["fs-alpha"; "fs-beta"; "fs-gamma"; "fs-delta"]} []
          {["fs-gamma"]} [] [].

Definition foreign_reply : Reply.t := Reply.mk 3 2 "1-red_sun-reply.gpg" false.

(** The inbox of [alice] beside a reply that belongs to [bob]. *)
Definition two_inboxes : State :=
  mkState [alice; bob] [] [hidden_reply; open_reply; foreign_reply]
          {["codename" := VStr "alpha"; "logged_in" := VBool true;
            "token" := VStr "t"]}
          [] {["fs-alpha"; "fs-beta"]} [] ∅ [] [].

Definition message_only : SubmitRequest :=
  mkSubmitRequest [] (Some "hello") None 1700000000.

(** As [collaborators], with reply files of three different dates. *)
Definition dated : Collaborators := {|
  hash_codename := fun c => "fs-" +:+ c;
  journalist_filename := fun d => d;
  read_reply := fun _ name =>
    Some ("enc:" +:+ name,
          if String.eqb name "3-blue_sky-reply.gpg" then 30
          else if String.eqb name "2-blue_sky-reply.gpg" then 20
          else 10);
  decrypt := fun _ c => Some c;
  is_signal_registered := fun _ => false;
  new_csrf_token := "5f2b7c";
  db_delete_failure := fun _ => None
|}.

Definition second_reply : Reply.t := Reply.mk 2 1 "2-blue_sky-reply.gpg" false.
Definition third_reply : Reply.t := Reply.mk 3 1 "3-blue_sky-reply.gpg" false.
Definition first_reply : Reply.t := Reply.mk 1 1 "1-blue_sky-reply.gpg" false.

(** [alice] with three replies, stored in an order that is not the
    order of their dates. *)
Definition three_replies : State :=
  mkState [alice] [] [second_reply; third_reply; first_reply]
          {["codename" := VStr "alpha"; "logged_in" := VBool true;
            "token" := VStr "t"]}
          [] {["fs-alpha"]} [] ∅ [] [].

Definition message_and_file : SubmitRequest :=
  mkSubmitRequest [] (Some "hello") (Some (mkFileStorage "memo.pdf" "%PDF")) 1700000000.

Definition without_csrf_token : SubmitRequest :=
  mkSubmitRequest [("csrf_token", ["The CSRF token is missing."])] (Some "hello")
                  (Some (mkFileStorage "memo.pdf" "%PDF")) 1700000000.

End Sample.

(** ** What a run of the management command leaves behind *)

Section Traces.
Context `{Collaborators}.

(** The transaction of one pending candidate: a delete, then a commit,
    or a rollback when the database raises. *)
Definition transaction_of (c : Source.t) : list db_op :=
  [DbDelete (Source.id c);
   match db_delete_failure (Source.id c) with
   | None => DbCommit
   | Some _ => DbRollback
   end].

(** The line printed for one pending candidate, if any. *)
Definition report_of (c : Source.t) : list string :=
  match db_delete_failure (Source.id c) with
  | None => []
  | Some exc => ["ERROR: Could not remove pending source: " +:+ exc +:+ "."]
  end.

(** Whether the deletion of the candidate [c] removes the row [s]. *)
Definition removes (c s : Source.t) : bool :=
  Source.pending c
  && bool_decide (db_delete_failure (Source.id c) = None)
  && Z.eqb (Source.id s) (Source.id c).

End Traces.

(** ** Notions for the properties of the whole interface *)

(** Decreasing order of primary keys and of dates. *)
Definition id_desc (a b : Source.t) : Prop := Source.id b <= Source.id a.

Definition date_desc (a b : DecryptedReply) : Prop := date b <= date a.

(** What identifies a stored submission: its source and the sequence
    number in its name. *)
Definition submission_key (sub : Submission.t) : Z * Z :=
  (Submission.source_id sub, seq (Submission.filename sub)).

(** Every submission belongs to a source whose count has reached its
    sequence number, and no two submissions share source and number. *)
Definition submissions_ok (st : State) : Prop :=
  NoDup (map submission_key (submissions st)) /\
  Forall (fun sub =>
            exists s, s ∈ sources st /\
                      Source.id s = Submission.source_id sub /\
                      1 <= seq (Submission.filename sub) <= Source.interaction_count s)
         (submissions st).

(** A reply row and what became of it: the same row but for the flag
    [deleted_by_source], which may only have been set. *)
Definition reply_kept (r r' : Reply.t) : Prop :=
  Reply.id r' = Reply.id r /\
  Reply.source_id r' = Reply.source_id r /\
  Reply.filename r' = Reply.filename r /\
  (Reply.deleted_by_source r = true -> Reply.deleted_by_source r' = true).

(** The replies that [lookup] can read and decrypt. *)
Definition readable `{Collaborators} (g : G) (r : Reply.t) : bool :=
  match read_and_decrypt g r with
  | inl _ => true
  | inr _ => false
  end.

(** * Properties *)

Section Properties.
Context {collaborators : Collaborators}.

(** ** Rows and their primary keys *)

Lemma update_source_elem (s s' : Source.t) (l : list Source.t) :
  s ∈ l -> Source.id s = Source.id s' -> s' ∈ update_source s' l.
Proof.
  intros Hin Hid. unfold update_source.
  apply list_elem_of_fmap. exists s. split; [|done].
  rewrite Hid, Z.eqb_refl. done.
Qed.

Lemma update_source_ids (s : Source.t) (l : list Source.t) :
  map Source.id (update_source s l) = map Source.id l.
Proof.
  unfold update_source. rewrite map_map. apply map_ext.
  intros r. destruct (Z.eqb_spec (Source.id r) (Source.id s)); congruence.
Qed.

Lemma update_source_inv (s x : Source.t) (l : list Source.t) :
  x ∈ update_source s l -> x = s \/ x ∈ l.
Proof.
  unfold update_source. intros Hx.
  apply list_elem_of_fmap in Hx as (r & -> & Hr).
  destruct (Z.eqb (Source.id r) (Source.id s)); auto.
Qed.

(** ** Submission intake *)

(** What a call of [submit] that passes the form validation and
    carries some content does to the state. *)
Lemma submit_accepted
      (allow : bool) (req : SubmitRequest) (g : G) (st : State) (msg : string) :
  form_errors req = [] ->
  form_msg req = Some msg ->
  let fh := if allow then files_fh req else None in
  str_truthy msg || fh_truthy fh = true ->
  let c := Source.interaction_count (g_source g) in
  let units := (if str_truthy msg then 1 else 0) + (if fh_truthy fh then 1 else 0) in
  let name := journalist_filename (Source.journalist_designation (g_source g)) in
  let created :=
    (if str_truthy msg then [mkFilename (c + 1) Msg name] else []) ++
    (if fh_truthy fh then [mkFilename (c + units) Doc name] else []) in
  let after :=
    Source.set_last_updated (utcnow req)
      (Source.set_pending false
         (Source.set_interaction_count (c + units) (g_source g))) in
  let st' := (submit allow req g st).2 in
  (submit allow req g st).1 = Redirect "main.lookup" /\
  sources st' = update_source after (sources st) /\
  submissions st' =
    submissions st ++ map (Submission.mk (Source.id (g_source g))) created /\
  files st' = files st ++
    map (fun f => mkStoredFile (g_filesystem_id g) f
                    (match fkind f with
                     | Msg => msg
                     | Doc => match fh with Some x => fs_stream x | None => "" end
                     end)) created /\
  (exists ack, flashes st' = flashes st ++ [(ack, "success")]) /\
  replies st' = replies st /\
  session st' = session (build_form st).
Proof.
  intros Herr Hmsg fh Hany c units name created after st'.
  subst st' created after units. unfold submit.
  rewrite Herr, Hmsg. fold fh. rewrite Hany. simpl negb. cbv iota.
  destruct (g_source g) as [i u f d p n lu] eqn:Hg. simpl in c. subst c.
  destruct (str_truthy msg) eqn:Hm; destruct fh as [x|] eqn:Hfh; simpl in Hany |- *;
    try destruct (str_truthy (fs_filename x)) eqn:Hx; simpl in Hany |- *;
    try discriminate;
    repeat match goal with
           | |- context [bool_decide ?P] => destruct (bool_decide P)
           | |- context [Z.eqb ?a ?b] => destruct (Z.eqb a b)
           end; simpl;
    rewrite ?app_nil_r, <- ?app_assoc, <- ?Z.add_assoc; simpl;
    repeat split; eauto.
Qed.

(** C1. A successful call of [submit] raises [interaction_count] by
    the number of content units present (one for a message, one for a
    file), saves the message before the file, names each unit after
    the count reached by its own increment, and leaves the count equal
    to the largest sequence number among the names it created. *)
Theorem submit_interaction_count
        (allow : bool) (req : SubmitRequest) (g : G) (st : State) (msg : string) :
  form_errors req = [] ->
  form_msg req = Some msg ->
  let fh := if allow then files_fh req else None in
  str_truthy msg || fh_truthy fh = true ->
  let c := Source.interaction_count (g_source g) in
  let units := (if str_truthy msg then 1 else 0) + (if fh_truthy fh then 1 else 0) in
  let name := journalist_filename (Source.journalist_designation (g_source g)) in
  let created :=
    (if str_truthy msg then [mkFilename (c + 1) Msg name] else []) ++
    (if fh_truthy fh then [mkFilename (c + units) Doc name] else []) in
  let after :=
    Source.set_last_updated (utcnow req)
      (Source.set_pending false
         (Source.set_interaction_count (c + units) (g_source g))) in
  let st' := (submit allow req g st).2 in
  1 <= units <= 2 /\
  sources st' = update_source after (sources st) /\
  (g_source g ∈ sources st -> after ∈ sources st') /\
  Source.interaction_count after = c + units /\
  submissions st' =
    submissions st ++ map (Submission.mk (Source.id (g_source g))) created /\
  map sf_name (drop (length (files st)) (files st')) = created /\
  max_seq created = Some (Source.interaction_count after).
Proof.
  intros Herr Hmsg fh Hany c units name created after st'.
  destruct (submit_accepted allow req g st msg Herr Hmsg Hany)
    as (_ & Hsrc & Hsub & Hfiles & _).
  fold fh c units name created after st' in Hsrc, Hsub, Hfiles.
  assert (Hunits : 1 <= units <= 2).
  { subst units. destruct (str_truthy msg), (fh_truthy fh); simpl in *; lia. }
  split; [exact Hunits|]. split; [exact Hsrc|]. split.
  { intros Hin. rewrite Hsrc. eapply update_source_elem; [exact Hin|].
    subst after. reflexivity. }
  split; [reflexivity|]. split; [exact Hsub|]. split.
  { rewrite Hfiles, drop_app_length, map_map. simpl. apply map_id. }
  subst created after units. simpl.
  destruct (str_truthy msg), (fh_truthy fh); simpl in *;
    try discriminate; f_equal; lia.
Qed.

(** ** Sorting and selection *)

Lemma insert_desc_perm {A : Type} (key : A -> Z) (x : A) (l : list A) :
  insert_desc key x l ≡ₚ x :: l.
Proof.
  induction l as [|y l IH]; simpl; [done|].
  destruct (Z.leb (key y) (key x)); [done|].
  rewrite IH. apply perm_swap.
Qed.

Lemma sort_desc_perm {A : Type} (key : A -> Z) (l : list A) :
  sort_desc key l ≡ₚ l.
Proof.
  induction l as [|x l IH]; simpl; [done|].
  rewrite insert_desc_perm. by rewrite IH.
Qed.

Lemma find_pending_sources_elem (keep : Z) (st : State) (s : Source.t) :
  s ∈ find_pending_sources keep st ->
  s ∈ sources st /\ Source.pending s = true.
Proof.
  unfold find_pending_sources. intros Hs.
  apply subseteq_drop in Hs.
  rewrite sort_desc_perm in Hs.
  apply list_elem_of_In, filter_In in Hs as [Hin Hp].
  split; [by apply list_elem_of_In|done].
Qed.

Lemma find_pending_sources_length (keep : Z) (st : State) :
  length (find_pending_sources keep st) =
  (length (List.filter Source.pending (sources st)) - Z.to_nat keep)%nat.
Proof.
  unfold find_pending_sources.
  rewrite length_drop. by rewrite (Permutation_length (sort_desc_perm _ _)).
Qed.

(** ** The loop of [remove_pending_sources] *)

Lemma filter_filter_andb {A : Type} (f g : A -> bool) (l : list A) :
  List.filter f (List.filter g l) = List.filter (fun x => g x && f x) l.
Proof.
  induction l as [|x l IH]; simpl; [done|].
  destruct (g x); simpl; [destruct (f x)|]; by rewrite IH.
Qed.

Lemma bind_ext_elem {A B : Type} (f g : A -> list B) (l : list A) :
  (forall x, x ∈ l -> f x = g x) -> l ≫= f = l ≫= g.
Proof.
  induction l as [|x l IH]; intros Hfg; [done|].
  rewrite !bind_cons, Hfg, IH; [done| |left].
  intros y Hy. apply Hfg. by right.
Qed.

Lemma delete_pending_source_spec (c : Source.t) (r : Run) :
  let r' := delete_pending_source c r in
  sources (run_state r') =
    List.filter (fun s => negb (removes c s)) (sources (run_state r)) /\
  keys (run_state r') = keys (run_state r) /\
  stdout r' = stdout r ++ (if Source.pending c then report_of c else []) /\
  db_ops r' = db_ops r ++ (if Source.pending c then transaction_of c else []).
Proof.
  unfold delete_pending_source, removes, report_of, transaction_of.
  destruct (Source.pending c); simpl.
  - destruct (db_delete_failure (Source.id c)) as [exc|]; simpl.
    + repeat split; try done.
      induction (sources (run_state r)) as [|x l IH]; simpl; congruence.
    + repeat split; try done. by rewrite app_nil_r.
  - repeat split; try by rewrite app_nil_r.
    induction (sources (run_state r)) as [|x l IH]; simpl; congruence.
Qed.

Lemma remove_one_spec (r : Run) (deleted : list Source.t) (c : Source.t) :
  let r' := (remove_one (r, deleted) c).1 in
  (remove_one (r, deleted) c).2 = deleted ++ [c] /\
  sources (run_state r') =
    List.filter (fun s => negb (removes c s)) (sources (run_state r)) /\
  keys (run_state r') = keys (run_state r) ∖ {[Source.filesystem_id c]} /\
  stdout r' = stdout r ++ (if Source.pending c then report_of c else []) /\
  db_ops r' = db_ops r ++ (if Source.pending c then transaction_of c else []).
Proof.
  unfold remove_one. simpl.
  set (r0 := match delete_source_key_pair _ _ with Some _ => _ | None => r end).
  assert (Hr0 : sources (run_state r0) = sources (run_state r) /\
                keys (run_state r0) = keys (run_state r) ∖ {[Source.filesystem_id c]} /\
                stdout r0 = stdout r /\ db_ops r0 = db_ops r).
  { subst r0. unfold delete_source_key_pair.
    case_bool_decide as Hk; simpl; repeat split; try done.
    set_solver. }
  destruct Hr0 as (Hs & Hk & Ho & Hd).
  destruct (delete_pending_source_spec c r0) as (Hs' & Hk' & Ho' & Hd').
  rewrite Hs', Hk', Ho', Hd', Hs, Hk, Ho, Hd. done.
Qed.

Lemma remove_loop_spec (found : list Source.t) (r : Run) (deleted : list Source.t) :
  let r' := (foldl remove_one (r, deleted) found).1 in
  (foldl remove_one (r, deleted) found).2 = deleted ++ found /\
  sources (run_state r') =
    List.filter (fun s => negb (existsb (fun c => removes c s) found))
                (sources (run_state r)) /\
  keys (run_state r') =
    keys (run_state r) ∖ list_to_set (map Source.filesystem_id found) /\
  stdout r' =
    stdout r ++ (found ≫= fun c => if Source.pending c then report_of c else []) /\
  db_ops r' =
    db_ops r ++ (found ≫= fun c => if Source.pending c then transaction_of c else []).
Proof.
  revert r deleted. induction found as [|c found IH]; intros r deleted.
  - simpl. rewrite !app_nil_r. repeat split; try done.
    + induction (sources (run_state r)) as [|x l IHl]; simpl; congruence.
    + set_solver.
  - change (foldl remove_one (r, deleted) (c :: found))
      with (foldl remove_one (remove_one (r, deleted) c) found).
    destruct (remove_one_spec r deleted c) as (Hd & Hs & Hk & Ho & Hops).
    destruct (remove_one (r, deleted) c) as [r1 d1] eqn:Hone.
    simpl in Hd, Hs, Hk, Ho, Hops.
    destruct (IH r1 d1) as (Hd' & Hs' & Hk' & Ho' & Hops').
    simpl.
    rewrite Hd', Hs', Hk', Ho', Hops', Hd, Hs, Hk, Ho, Hops.
    rewrite <- !app_assoc. repeat split; try done.
    + rewrite filter_filter_andb. apply filter_ext. intros s.
      by rewrite negb_orb.
    + set_solver.
Qed.

(** The state and the output of a whole run. *)
Lemma remove_pending_sources_spec (keep : Z) (st : State) :
  let found := find_pending_sources keep st in
  let r := (remove_pending_sources keep st).2 in
  (remove_pending_sources keep st).1 = 0 /\
  sources (run_state r) =
    List.filter (fun s => negb (existsb (fun c => removes c s) found)) (sources st) /\
  keys (run_state r) = keys st ∖ list_to_set (map Source.filesystem_id found) /\
  stdout r =
    ["Found " +:+ pretty (length found) +:+ " pending sources"] ++
    (found ≫= report_of) ++
    ["Deleted " +:+ pretty (length found) +:+ " pending sources"] /\
  db_ops r = found ≫= transaction_of.
Proof.
  intros found r. subst r. unfold remove_pending_sources. fold found.
  set (r0 := print _ (mkRun st [] [])).
  destruct (foldl remove_one (r0, []) found) as [r1 d1] eqn:Hloop.
  destruct (remove_loop_spec found r0 []) as (_ & Hs & Hk & Ho & Hops).
  rewrite Hloop in Hs, Hk, Ho, Hops. simpl in Hs, Hk, Ho, Hops. simpl.
  assert (Hpend : forall (B : Type) (f : Source.t -> list B),
             (found ≫= fun c => if Source.pending c then f c else []) = found ≫= f).
  { intros B f. apply bind_ext_elem. intros c Hc.
    apply find_pending_sources_elem in Hc as [_ ->]. done. }
  rewrite Hs, Hk, Ho, Hops, !Hpend. simpl.
  done.
Qed.




(** C3, amended. For every [keep_most_recent] that SQLite binds, a
    64-bit signed integer, the reaper prints, in its closing line, the
    number of candidates it considered: the pending sources less the
    [keep_most_recent] with the highest primary keys, whether or not
    their deletion went through; and the value it returns, the exit
    status of the command, is always 0. *)
Theorem reaper_reports_candidates (keep : Z) (st : State) :
  sqlite_integer keep ->
  let found := find_pending_sources keep st in
  let r := (remove_pending_sources keep st).2 in
  (remove_pending_sources keep st).1 = 0 /\
  last (stdout r) =
    Some ("Deleted " +:+ pretty (length found) +:+ " pending sources") /\
  length found =
    (length (List.filter Source.pending (sources st)) - Z.to_nat keep)%nat.
Proof.
  intros _ found r.
  destruct (remove_pending_sources_spec keep st) as (Hz & _ & _ & Ho & _).
  fold found r in Ho.
  split; [exact Hz|]. split; [|apply find_pending_sources_length].
  rewrite Ho, app_assoc. apply last_snoc.
Qed.

(** ** What each view does to the table of sources *)

Lemma foldl_frame {A B C : Type} (proj : A -> C) (f : A -> B -> A)
      (l : list B) (a : A) :
  (forall a b, proj (f a b) = proj a) -> proj (foldl f a l) = proj a.
Proof.
  intros Hf. revert a. induction l as [|b l IH]; intros a; simpl; [done|].
  by rewrite IH.
Qed.

Lemma generate_sources (tab_id codename : string) (st : State) :
  sources (generate tab_id codename st).2 = sources st.
Proof.
  unfold generate. destruct (logged_in st); [done|].
  destruct (session st !! "codenames") as [[]|]; done.
Qed.

Lemma lookup_loop_frame (g : G) (inbox : list Reply.t)
      (acc : list DecryptedReply) (st : State) :
  let st' := (lookup_loop g inbox acc st).2 in
  sources st' = sources st /\ replies st' = replies st /\
  session st' = session st /\ keys st' = keys st.
Proof.
  revert acc st. induction inbox as [|r inbox IH]; intros acc st; simpl; [done|].
  destruct (read_and_decrypt g r) as [d|line]; [apply IH|].
  destruct (IH acc (log line st)) as (? & ? & ? & ?). done.
Qed.

Lemma lookup_frame (g : G) (st : State) :
  let st' := (lookup g st).2 in
  sources st' = sources st /\ replies st' = replies st /\
  (forall k, k <> "csrf_token" -> session st' !! k = session st !! k).
Proof.
  unfold lookup.
  destruct (lookup_loop_frame g (source_inbox g st) [] st) as (Hs & Hr & Hse & _).
  destruct (lookup_loop g (source_inbox g st) [] st) as [shown st1].
  simpl in Hs, Hr, Hse.
  destruct (bool_decide (g_filesystem_id g ∈ keys st1)); simpl;
    rewrite Hse; destruct (session st !! "token"); simpl;
    (split; [done|split; [done|]]); intros k Hk; rewrite ?Hse; try done;
    destruct (session st !! "csrf_token"); try done;
    by rewrite lookup_insert_ne.
Qed.

Lemma delete_sources (name : option string) (g : G) (st : State) :
  sources (delete name g st).2 = sources st.
Proof.
  unfold delete. destruct name as [name|]; [|done].
  destruct (get_one_or_else _); done.
Qed.

Lemma batch_delete_sources (g : G) (st : State) :
  sources (batch_delete g st).2 = sources st.
Proof.
  unfold batch_delete. destruct (Nat.eqb _ 0); [done|]. simpl.
  by apply (foldl_frame sources).
Qed.

Lemma logout_sources (locale : string) (st : State) :
  sources (logout locale st).2 = sources st.
Proof. unfold logout. by destruct (logged_in st). Qed.

Lemma create_sources (req : CreateRequest) (st : State) :
  sources (create req st).2 = sources st \/
  exists uuid fsid designation,
    sources (create req st).2 =
    sources st ++ [Source.mk (fresh_id (sources st)) uuid fsid designation true 0 None].
Proof.
  unfold create. destruct (session_get_truthy "logged_in" st); [by left|].
  destruct (form_tab_id req) as [tab_id|]; [|by left].
  destruct (session st !! "codenames") as [[| |d]|]; try by left.
  destruct (d !! tab_id) as [codename|]; [|by left].
  destruct (display_id req) as [designation|]; [|by left].
  simpl. destruct (duplicate_filesystem_id _ _); [by left|].
  right. exists (new_uuid req), (hash_codename codename), designation.
  destruct (bool_decide _); done.
Qed.

Lemma submit_sources (allow : bool) (req : SubmitRequest) (g : G) (st : State) :
  sources (submit allow req g st).2 = sources st \/
  exists units now,
    1 <= units <= 2 /\
    sources (submit allow req g st).2 =
    update_source
      (Source.set_last_updated now
         (Source.set_pending false
            (Source.set_interaction_count
               (Source.interaction_count (g_source g) + units) (g_source g))))
      (sources st).
Proof.
  destruct (form_errors req) as [|e errors] eqn:Herr.
  2:{ left. unfold submit. rewrite Herr. simpl.
      by rewrite (foldl_frame sources). }
  destruct (form_msg req) as [msg|] eqn:Hmsg.
  2:{ left. unfold submit. by rewrite Herr, Hmsg. }
  destruct (str_truthy msg || fh_truthy (if allow then files_fh req else None))
    eqn:Hany.
  2:{ left. unfold submit. rewrite Herr, Hmsg, Hany. by destruct allow. }
  right. destruct (submit_accepted allow req g st msg Herr Hmsg Hany)
    as (_ & Hsrc & _).
  eexists _, (utcnow req). split; [|exact Hsrc].
  destruct (str_truthy msg), (fh_truthy _); simpl in *; lia.
Qed.

(** ** The invariant of the store *)

Lemma fresh_id_above (l : list Source.t) (s : Source.t) :
  s ∈ l -> Source.id s < fresh_id l.
Proof.
  unfold fresh_id. induction 1 as [s l|s x l _ IH]; simpl; lia.
Qed.

Lemma NoDup_ids_filter (f : Source.t -> bool) (l : list Source.t) :
  NoDup (map Source.id l) -> NoDup (map Source.id (List.filter f l)).
Proof.
  induction l as [|x l IH]; simpl; [done|].
  rewrite NoDup_cons. intros [Hx Hl].
  destruct (f x); simpl; [|by apply IH].
  apply NoDup_cons. split; [|by apply IH].
  intros Hin. apply Hx.
  apply list_elem_of_fmap in Hin as (y & Hy & Hin).
  apply list_elem_of_In, filter_In in Hin as [Hin _].
  apply list_elem_of_fmap. exists y. split; [done|by apply list_elem_of_In].
Qed.

Lemma store_ok_step (st st' : State) :
  store_ok st -> step st st' -> store_ok st'.
Proof.
  intros [Hnd Hok] Hstep. unfold store_ok.
  destruct Hstep as [tab_id codename st|req st|g st Hg|allow req g st Hg
                    |name g st Hg|g st Hg|locale st|keep st].
  - by rewrite generate_sources.
  - destruct (create_sources req st) as [->|(u & f & d & ->)]; [done|].
    rewrite map_app, Forall_app. simpl. split.
    + apply NoDup_app. split; [done|]. split; [|apply NoDup_singleton].
      intros i Hi Hi'. apply list_elem_of_singleton in Hi'. subst i.
      apply list_elem_of_fmap in Hi as (s & Hs & Hin).
      apply fresh_id_above in Hin. lia.
    + split; [done|]. apply Forall_singleton. by split.
  - destruct (lookup_frame g st) as (-> & _). done.
  - destruct (submit_sources allow req g st) as [->|(units & now & Hu & ->)]; [done|].
    rewrite update_source_ids. split; [done|].
    apply Forall_forall. intros x Hx.
    apply update_source_inv in Hx as [->|Hx].
    + rewrite Forall_forall in Hok. destruct (Hok _ Hg) as [Hc _].
      split; simpl; [lia|]. symmetry. apply Z.eqb_neq. lia.
    + rewrite Forall_forall in Hok. by apply Hok.
  - by rewrite delete_sources.
  - by rewrite batch_delete_sources.
  - by rewrite logout_sources.
  - destruct (remove_pending_sources_spec keep st) as (_ & -> & _). split.
    + by apply NoDup_ids_filter.
    + apply Forall_forall. intros x Hx.
      apply list_elem_of_In, filter_In in Hx as [Hx _].
      rewrite Forall_forall in Hok. by apply Hok, list_elem_of_In.
Qed.

Lemma reachable_store_ok (st : State) : reachable st -> store_ok st.
Proof.
  induction 1 as [st Hnil|st st' _ IH Hstep].
  - unfold store_ok. rewrite Hnil. split; [constructor|done].
  - by apply (store_ok_step st).
Qed.

Lemma NoDup_ids_inj (l : list Source.t) (s c : Source.t) :
  NoDup (map Source.id l) -> s ∈ l -> c ∈ l ->
  Source.id s = Source.id c -> s = c.
Proof.
  induction l as [|x l IH]; simpl; intros Hnd Hs Hc Hid.
  - by apply elem_of_nil in Hs.
  - apply NoDup_cons in Hnd as [Hx Hnd].
    apply elem_of_cons in Hs as [->|Hs]; apply elem_of_cons in Hc as [->|Hc];
      try done; [| |by apply IH]; exfalso; apply Hx.
    + rewrite Hid. by apply list_elem_of_fmap_2.
    + rewrite <- Hid. by apply list_elem_of_fmap_2.
Qed.

(** A row that has interactions survives a run of the reaper. *)
Lemma remove_pending_sources_keeps (keep : Z) (st : State) (s : Source.t) :
  store_ok st -> s ∈ sources st -> 0 < Source.interaction_count s ->
  s ∈ sources (run_state (remove_pending_sources keep st).2).
Proof.
  intros [Hnd Hok] Hs Hpos.
  destruct (remove_pending_sources_spec keep st) as (_ & -> & _).
  apply list_elem_of_In, filter_In. split; [by apply list_elem_of_In|].
  apply negb_true_iff.
  destruct (existsb _ _) eqn:Hex; [exfalso|done].
  apply existsb_exists in Hex as (c & Hc & Hrm).
  apply list_elem_of_In, find_pending_sources_elem in Hc as [Hc Hp].
  unfold removes in Hrm. apply andb_prop in Hrm as [_ Hid].
  apply Z.eqb_eq in Hid.
  assert (s = c) as -> by by apply (NoDup_ids_inj (sources st)).
  rewrite Forall_forall in Hok. destruct (Hok _ Hs) as [_ Hinv].
  rewrite Hp in Hinv. symmetry in Hinv. apply Z.eqb_eq in Hinv. lia.
Qed.

(** When the operations run one after another, each as a whole: in
    every state they reach, each
    source is pending exactly when its [interaction_count] is 0.  The
    reaper selects only pending sources, which have no interaction,
    and [delete_pending_source] leaves a source that is not pending
    alone; so no operation removes a source whose
    [interaction_count] is above 0. *)
Theorem pending_iff_no_interaction (st : State) :
  reachable st ->
  (forall s, s ∈ sources st ->
     Source.pending s = Z.eqb (Source.interaction_count s) 0) /\
  (forall keep s, s ∈ find_pending_sources keep st ->
     Source.pending s = true /\ Source.interaction_count s = 0) /\
  (forall s r, Source.pending s = false -> delete_pending_source s r = r) /\
  (forall st' s, step st st' -> s ∈ sources st -> 0 < Source.interaction_count s ->
     exists s', s' ∈ sources st' /\ Source.id s' = Source.id s /\
                0 < Source.interaction_count s').
Proof.
  intros Hreach. pose proof (reachable_store_ok st Hreach) as Hst.
  pose proof Hst as [Hnd Hok]. rewrite Forall_forall in Hok.
  split; [|split; [|split]].
  - intros s Hs. by destruct (Hok s Hs).
  - intros keep s Hs. apply find_pending_sources_elem in Hs as [Hs Hp].
    split; [done|]. destruct (Hok s Hs) as [_ Hinv].
    rewrite Hp in Hinv. symmetry in Hinv. by apply Z.eqb_eq in Hinv.
  - intros s r Hp. unfold delete_pending_source. by rewrite Hp.
  - intros st' s Hstep Hs Hpos.
    destruct Hstep as [tab_id codename st|req st|g st Hg|allow req g st Hg
                      |name g st Hg|g st Hg|locale st|keep st].
    + exists s. by rewrite generate_sources.
    + exists s. split; [|done].
      destruct (create_sources req st) as [->|(u & f & d & ->)]; [done|].
      apply elem_of_app. by left.
    + exists s. destruct (lookup_frame g st) as (-> & _). done.
    + destruct (submit_sources allow req g st) as [->|(units & now & Hu & ->)];
        [by exists s|].
      destruct (Z.eqb_spec (Source.id s) (Source.id (g_source g))) as [Heq|Hne].
      * eexists. split; [by eapply update_source_elem|].
        split; [by rewrite Heq|]. simpl.
        destruct (Hok _ Hg) as [Hc _]. lia.
      * exists s. split; [|done]. unfold update_source.
        apply list_elem_of_fmap. exists s. split; [|done].
        simpl. apply Z.eqb_neq in Hne. by rewrite Hne.
    + exists s. by rewrite delete_sources.
    + exists s. by rewrite batch_delete_sources.
    + exists s. by rewrite logout_sources.
    + exists s. split; [|done]. by apply remove_pending_sources_keeps.
Qed.

(** ** Account creation *)

(** C4. When the commit of the new source violates the unique
    constraint on [filesystem_id], [create] answers with the fatal
    status 500, the store is as it was, and the session holds neither
    the codename nor the logged-in flag: the caller is not logged in. *)
Theorem create_duplicate_fails_logged_out
        (req : CreateRequest) (st : State) (tab_id codename designation : string)
        (d : gmap string string) :
  session_get_truthy "logged_in" st = false ->
  form_tab_id req = Some tab_id ->
  session st !! "codenames" = Some (VDict d) ->
  d !! tab_id = Some codename ->
  display_id req = Some designation ->
  duplicate_filesystem_id (hash_codename codename) (sources st) = true ->
  let st' := (create req st).2 in
  (create req st).1 = Abort 500 /\
  (sources st' = sources st /\ submissions st' = submissions st /\
   replies st' = replies st /\ dirs st' = dirs st /\ files st' = files st /\
   keys st' = keys st) /\
  session st' !! "codename" = None /\
  session st' !! "logged_in" = None /\
  logged_in st' = false /\
  session_get_truthy "logged_in" st' = false.
Proof.
  intros Hout Htab Hmap Hcode Hname Hdup. unfold create.
  rewrite Hout, Htab, Hmap, Hcode, Hname. simpl. rewrite Hdup. simpl.
  split; [done|]. split; [done|].
  unfold logged_in, session_get_truthy. simpl.
  rewrite lookup_delete_eq.
  rewrite lookup_delete_ne, lookup_delete_eq by done.
  repeat split; done.
Qed.

(** C10. When the session is already logged in, [create] flashes one
    notification and redirects, whatever the form holds: the state is
    otherwise the one before the call, so no source is inserted and
    the mapping from tab ids to codenames is neither consulted nor
    dropped. *)
Theorem create_logged_in_changes_nothing (req : CreateRequest) (st : State) :
  session_get_truthy "logged_in" st = true ->
  let notice :=
    Text ("You are already logged in. Please verify your codename above as it " +:+
          "may differ from the one displayed on the previous page.") in
  let st' := (create req st).2 in
  create req st = (Redirect ".lookup", flash notice "notification" st) /\
  (forall req', create req' st = create req st) /\
  sources st' = sources st /\
  session st' = session st /\
  dirs st' = dirs st /\
  flashes st' = flashes st ++ [(notice, "notification")].
Proof.
  intros Hin. unfold create. rewrite Hin. simpl. repeat split; done.
Qed.

(** ** Codenames per tab *)

(** What [generate] binds when nobody is logged in. *)
Lemma generate_binds (tab_id codename : string) (st : State) (m : gmap string string) :
  logged_in st = false ->
  session st !! "codenames" = Some (VDict m) \/
  (session st !! "codenames" = None /\ m = ∅) ->
  generate tab_id codename st =
  (RenderGenerate codename tab_id,
   session_set "new_user" (VBool true)
     (session_set "codenames" (VDict (<[tab_id := codename]> m)) st)).
Proof.
  intros Hout Hm. unfold generate. rewrite Hout.
  destruct Hm as [->|[-> ->]]; done.
Qed.

(** C5. Within one session, showing a codename in the tab [tabB]
    leaves the entry of every other tab as it was: the entry of
    [tabA] is still its own codename, both entries are present, and
    creating the account from [tabA] uses the codename of [tabA]. *)
Theorem codenames_are_kept_per_tab
        (st : State) (m : gmap string string) (tabA cA tabB cB : string) :
  logged_in st = false ->
  session st !! "codenames" = Some (VDict m) ->
  m !! tabA = Some cA ->
  tabA <> tabB ->
  let st' := (generate tabB cB st).2 in
  exists m',
    session st' !! "codenames" = Some (VDict m') /\
    m' !! tabA = Some cA /\
    m' !! tabB = Some cB /\
    (forall t, t <> tabB -> m' !! t = m !! t) /\
    (cA <> cB -> m' !! tabA <> Some cB) /\
    (forall req designation,
       form_tab_id req = Some tabA ->
       display_id req = Some designation ->
       duplicate_filesystem_id (hash_codename cA) (sources st') = false ->
       let st'' := (create req st').2 in
       session st'' !! "codename" = Some (VStr cA) /\
       exists source, source ∈ sources st'' /\
                      Source.filesystem_id source = hash_codename cA).
Proof.
  intros Hout Hm HA Hne st'. subst st'.
  rewrite (generate_binds tabB cB st m Hout (or_introl Hm)). simpl.
  exists (<[tabB := cB]> m).
  assert (HA' : <[tabB := cB]> m !! tabA = Some cA)
    by by rewrite lookup_insert_ne.
  split; [|split; [exact HA'|split; [|split; [|split]]]].
  - rewrite lookup_insert_ne by done. by rewrite lookup_insert_eq.
  - by rewrite lookup_insert_eq.
  - intros t Ht. by rewrite lookup_insert_ne.
  - intros Hc. rewrite HA'. congruence.
  - intros req designation Htab Hname Hdup. unfold create.
    assert (Hflag : session_get_truthy "logged_in"
              (session_set "new_user" (VBool true)
                 (session_set "codenames" (VDict (<[tabB:=cB]> m)) st)) = false).
    { unfold session_get_truthy. simpl.
      rewrite !lookup_insert_ne by done.
      unfold logged_in in Hout. apply bool_decide_eq_false in Hout.
      destruct (session st !! "logged_in") eqn:E; [|done].
      exfalso. apply Hout. by eexists. }
    rewrite Hflag, Htab. simpl.
    rewrite lookup_insert_ne by done. rewrite lookup_insert_eq.
    rewrite HA', Hname. simpl in Hdup |- *. rewrite Hdup.
    destruct (bool_decide _); simpl.
    + split.
      * rewrite lookup_delete_ne by done. by rewrite lookup_insert_eq.
      * eexists. split; [apply elem_of_app; right; by left|done].
    + split.
      * rewrite lookup_insert_ne by done.
        rewrite lookup_delete_ne by done. by rewrite lookup_insert_eq.
      * eexists. split; [apply elem_of_app; right; by left|done].
Qed.

(** ** The inbox *)

Lemma lookup_loop_shown (g : G) (inbox : list Reply.t)
      (acc : list DecryptedReply) (st : State) (d : DecryptedReply) :
  d ∈ (lookup_loop g inbox acc st).1 -> d ∈ acc \/ reply d ∈ inbox.
Proof.
  revert acc st. induction inbox as [|r inbox IH]; intros acc st; simpl; [by left|].
  unfold read_and_decrypt.
  destruct (read_reply _ _) as [[contents mtime]|]; simpl.
  - destruct (decrypt _ _) as [plain|]; simpl; intros Hd; apply IH in Hd.
    + destruct Hd as [Hd|Hd]; [|right; by right].
      apply elem_of_app in Hd as [Hd|Hd]; [by left|].
      apply list_elem_of_singleton in Hd. subst d. right. by left.
    + destruct Hd as [Hd|Hd]; [by left|right; by right].
  - intros Hd. apply IH in Hd as [Hd|Hd]; [by left|right; by right].
Qed.

(** Every reply that [lookup] shows is a row of the source that is not
    marked as deleted. *)
Lemma lookup_shown (g : G) (st : State) (r : Reply.t) :
  r ∈ shown_replies (lookup g st).1 ->
  r ∈ replies st /\
  Reply.source_id r = Source.id (g_source g) /\
  Reply.deleted_by_source r = false.
Proof.
  unfold lookup.
  destruct (lookup_loop g (source_inbox g st) [] st) as [shown st1] eqn:Hloop.
  destruct (bool_decide _); simpl;
    (destruct (_ !! "token") as [token|]; simpl;
     [|intros Hr; by apply elem_of_nil in Hr]);
    intros Hr; apply list_elem_of_fmap in Hr as (d & -> & Hd);
    rewrite sort_desc_perm in Hd;
    change shown with (shown, st1).1 in Hd; rewrite <- Hloop in Hd;
    apply lookup_loop_shown in Hd as [Hd|Hd];
    try (by apply elem_of_nil in Hd);
    unfold source_inbox in Hd;
    apply list_elem_of_In, filter_In in Hd as [Hin Hq];
    apply andb_prop in Hq as [Hid Hdel];
    apply Z.eqb_eq in Hid; apply negb_true_iff in Hdel;
    (split; [by apply list_elem_of_In|done]).
Qed.

Lemma lookups_shown (n : nat) (g : G) (st : State) (resp : response) (r : Reply.t) :
  resp ∈ (lookups n g st).1 ->
  r ∈ shown_replies resp ->
  r ∈ replies st /\
  Reply.source_id r = Source.id (g_source g) /\
  Reply.deleted_by_source r = false.
Proof.
  revert st. induction n as [|n IH]; intros st; simpl.
  - intros Hresp. by apply elem_of_nil in Hresp.
  - destruct (lookup_frame g st) as (_ & Hrep & _).
    pose proof (lookup_shown g st r) as Hfirst.
    destruct (lookup g st) as [resp1 st1]. simpl in Hrep, Hfirst.
    specialize (IH st1).
    destruct (lookups n g st1) as [rest st2]. simpl in IH |- *.
    intros Hresp Hr. apply elem_of_cons in Hresp as [->|Hresp]; [by apply Hfirst|].
    rewrite <- Hrep. by apply IH.
Qed.

Lemma lookups_replies (n : nat) (g : G) (st : State) :
  replies (lookups n g st).2 = replies st.
Proof.
  revert st. induction n as [|n IH]; intros st; simpl; [done|].
  destruct (lookup_frame g st) as (_ & Hrep & _).
  destruct (lookup g st) as [resp1 st1]. simpl in Hrep.
  specialize (IH st1). destruct (lookups n g st1) as [rest st2].
  simpl in IH |- *. congruence.
Qed.

Lemma update_reply_ids (x : Reply.t) (l : list Reply.t) :
  map Reply.id (update_reply x l) = map Reply.id l.
Proof.
  unfold update_reply. rewrite map_map. apply map_ext.
  intros r. destruct (Z.eqb_spec (Reply.id r) (Reply.id x)); congruence.
Qed.

Lemma NoDup_reply_ids_inj (l : list Reply.t) (x y : Reply.t) :
  NoDup (map Reply.id l) -> x ∈ l -> y ∈ l ->
  Reply.id x = Reply.id y -> x = y.
Proof.
  induction l as [|z l IH]; simpl; intros Hnd Hx Hy Hid.
  - by apply elem_of_nil in Hx.
  - apply NoDup_cons in Hnd as [Hz Hnd].
    apply elem_of_cons in Hx as [->|Hx]; apply elem_of_cons in Hy as [->|Hy];
      try done; [| |by apply IH]; exfalso; apply Hz.
    + rewrite Hid. by apply list_elem_of_fmap_2.
    + rewrite <- Hid. by apply list_elem_of_fmap_2.
Qed.

(** The rows [delete] asks for: this filename, this source. *)
Lemma delete_query_elem (name : string) (g : G) (l : list Reply.t) (r : Reply.t) :
  r ∈ List.filter (fun r => String.eqb (Reply.filename r) name
                            && Z.eqb (Reply.source_id r) (Source.id (g_source g))) l <->
  r ∈ l /\ Reply.filename r = name /\ Reply.source_id r = Source.id (g_source g).
Proof.
  rewrite list_elem_of_In, filter_In, <- list_elem_of_In, andb_true_iff.
  rewrite String.eqb_eq, Z.eqb_eq. done.
Qed.

(** C6. A reply whose [deleted_by_source] flag is set appears in the
    result of no call of [lookup], however many calls follow one
    another, and the calls leave the flag as it is; after [delete]
    has gone through for a filename, no later [lookup] of that source
    shows a reply of that name. *)
Theorem deleted_reply_never_listed
        (g : G) (st : State) (r : Reply.t) (n : nat) (resp : response) :
  Reply.deleted_by_source r = true ->
  resp ∈ (lookups n g st).1 ->
  (r ∉ shown_replies resp) /\
  replies (lookups n g st).2 = replies st /\
  (forall name m resp' x,
     (delete (Some name) g st).1 = Redirect ".lookup" ->
     resp' ∈ (lookups m g (delete (Some name) g st).2).1 ->
     x ∈ shown_replies resp' ->
     Reply.filename x <> name).
Proof.
  intros Hdel Hresp. split; [|split; [apply lookups_replies|]].
  - intros Hr. destruct (lookups_shown n g st resp r Hresp Hr) as (_ & _ & Hno).
    congruence.
  - intros name m resp' x Hok Hresp' Hx Hname.
    destruct (lookups_shown m g _ resp' x Hresp' Hx) as (Hin & Hsrc & Hno).
    revert Hok Hin. unfold delete.
    destruct (List.filter _ (replies st)) as [|r0 [|r1 rest]] eqn:Hq;
      simpl; try discriminate.
    intros _ Hin. unfold update_reply in Hin.
    apply list_elem_of_fmap in Hin as (y & Hy & Hin).
    change (Reply.id (Reply.set_deleted_by_source true r0))
      with (Reply.id r0) in Hy.
    destruct (Z.eqb_spec (Reply.id y) (Reply.id r0)) as [Heq|Hneq].
    + rewrite Hy in Hno. simpl in Hno. discriminate.
    + subst y.
      assert (Hxq : x ∈ [r0]).
      { rewrite <- Hq. by apply delete_query_elem. }
      apply list_elem_of_singleton in Hxq. by subst x.
Qed.

(** ** Deleting one reply *)

Lemma update_reply_same (r : Reply.t) (l : list Reply.t) :
  NoDup (map Reply.id l) -> r ∈ l -> update_reply r l = l.
Proof.
  intros Hnd Hr. unfold update_reply.
  rewrite <- (map_id l) at 2. apply map_ext_in. intros x Hx.
  destruct (Z.eqb_spec (Reply.id x) (Reply.id r)) as [Heq|]; [|done].
  symmetry. apply (NoDup_reply_ids_inj l); try done. by apply list_elem_of_In.
Qed.

Lemma filter_map_commute {A : Type} (q : A -> bool) (f : A -> A) (l : list A) :
  (forall x, x ∈ l -> q (f x) = q x) ->
  List.filter q (map f l) = map f (List.filter q l).
Proof.
  induction l as [|x l IH]; intros Hq; simpl; [done|].
  rewrite Hq by by left. rewrite IH.
  - by destruct (q x).
  - intros y Hy. apply Hq. by right.
Qed.

Lemma delete_found (name : string) (g : G) (st : State) (r : Reply.t) :
  List.filter (fun r => String.eqb (Reply.filename r) name
                        && Z.eqb (Reply.source_id r) (Source.id (g_source g)))
              (replies st) = [r] ->
  delete (Some name) g st =
  (Redirect ".lookup",
   flash (Text "Reply deleted") "notification"
         (with_replies
            (update_reply (Reply.set_deleted_by_source true r) (replies st)) st)).
Proof. intros Hq. unfold delete. by rewrite Hq. Qed.

Lemma delete_already_deleted (name : string) (g : G) (st : State) (r : Reply.t) :
  NoDup (map Reply.id (replies st)) ->
  List.filter (fun r => String.eqb (Reply.filename r) name
                        && Z.eqb (Reply.source_id r) (Source.id (g_source g)))
              (replies st) = [r] ->
  Reply.deleted_by_source r = true ->
  delete (Some name) g st =
  (Redirect ".lookup", flash (Text "Reply deleted") "notification" st).
Proof.
  intros Hnd Hq Hdel. rewrite (delete_found name g st r Hq).
  assert (Hr : r ∈ replies st).
  { apply (delete_query_elem name g). rewrite Hq. by left. }
  assert (Hsame : Reply.set_deleted_by_source true r = r).
  { destruct r; simpl in *; by subst. }
  rewrite Hsame, update_reply_same by done.
  by destruct st.
Qed.

(** C9. Deleting a reply of the caller that is already marked as
    deleted goes through again: the answer is the same redirect, the
    reply stays marked, and but for the flashed notice the state is
    the one before the call.  So a second [delete] of the same reply
    changes nothing that the first left. *)
Theorem delete_is_idempotent (name : string) (g : G) (st : State) (r : Reply.t) :
  NoDup (map Reply.id (replies st)) ->
  List.filter (fun r => String.eqb (Reply.filename r) name
                        && Z.eqb (Reply.source_id r) (Source.id (g_source g)))
              (replies st) = [r] ->
  let notice := Text "Reply deleted" in
  let st1 := (delete (Some name) g st).2 in
  (Reply.deleted_by_source r = true ->
     delete (Some name) g st = (Redirect ".lookup", flash notice "notification" st)) /\
  (delete (Some name) g st).1 = Redirect ".lookup" /\
  Reply.set_deleted_by_source true r ∈ replies st1 /\
  delete (Some name) g st1 = (Redirect ".lookup", flash notice "notification" st1) /\
  replies (delete (Some name) g st1).2 = replies st1.
Proof.
  intros Hnd Hq notice st1.
  assert (Hr : r ∈ replies st).
  { apply (delete_query_elem name g). rewrite Hq. by left. }
  assert (Hrep : replies st1 =
                 update_reply (Reply.set_deleted_by_source true r) (replies st)).
  { subst st1. by rewrite (delete_found name g st r Hq). }
  assert (Htwice : delete (Some name) g st1 =
                   (Redirect ".lookup", flash notice "notification" st1)).
  { apply (delete_already_deleted name g st1 (Reply.set_deleted_by_source true r));
      [| |done].
    - by rewrite Hrep, update_reply_ids.
    - rewrite Hrep. unfold update_reply. rewrite filter_map_commute.
      + rewrite Hq. simpl. by rewrite Z.eqb_refl.
      + intros x Hx. simpl.
        destruct (Z.eqb_spec (Reply.id x) (Reply.id r)) as [Heq|]; [|done].
        by rewrite (NoDup_reply_ids_inj (replies st) x r Hnd Hx Hr Heq). }
  split; [by apply delete_already_deleted|].
  split; [by rewrite (delete_found name g st r Hq)|].
  split; [|split; [exact Htwice|by rewrite Htwice]].
  rewrite Hrep. unfold update_reply. apply list_elem_of_fmap.
  exists r. split; [|done]. simpl. by rewrite Z.eqb_refl.
Qed.

(** ** Uploads switched off *)

(** C8, amended. With document uploads switched off, a call of
    [submit] that passes the form validation and carries a message
    that is not empty together with a file stores the message alone:
    one submission, [interaction_count] one higher, the usual
    redirect and one flashed message, of category success. *)
Theorem submit_drops_file_when_uploads_off
        (req : SubmitRequest) (g : G) (st : State) (msg : string) (f : FileStorage) :
  form_errors req = [] ->
  form_msg req = Some msg ->
  msg <> "" ->
  files_fh req = Some f ->
  let c := Source.interaction_count (g_source g) in
  let name := journalist_filename (Source.journalist_designation (g_source g)) in
  let after :=
    Source.set_last_updated (utcnow req)
      (Source.set_pending false
         (Source.set_interaction_count (c + 1) (g_source g))) in
  let st' := (submit false req g st).2 in
  (submit false req g st).1 = Redirect "main.lookup" /\
  submissions st' =
    submissions st ++ [Submission.mk (Source.id (g_source g)) (mkFilename (c + 1) Msg name)] /\
  sources st' = update_source after (sources st) /\
  Source.interaction_count after = c + 1 /\
  files st' =
    files st ++ [mkStoredFile (g_filesystem_id g) (mkFilename (c + 1) Msg name) msg] /\
  exists ack, flashes st' = flashes st ++ [(ack, "success")].
Proof.
  intros Herr Hmsg Hne Hfile c name after st'.
  assert (Htruthy : str_truthy msg = true).
  { unfold str_truthy. apply negb_true_iff. by apply String.eqb_neq. }
  assert (Hany : str_truthy msg || fh_truthy (if false then files_fh req else None) = true)
    by by rewrite Htruthy.
  destruct (submit_accepted false req g st msg Herr Hmsg Hany)
    as (Hresp & Hsrc & Hsub & Hfiles & Hflash & _).
  simpl in Hsrc, Hsub, Hfiles. rewrite Htruthy in Hsrc, Hsub, Hfiles.
  simpl in Hsrc, Hsub, Hfiles.
  repeat split; done.
Qed.

End Properties.

(** * The properties on sample data *)

Lemma submit_interaction_count_witness :
  let st' := (@submit Sample.collaborators true Sample.message_and_file
                      Sample.g_alice Sample.one_pending).2 in
  sources st' =
    [Source.mk 1 "uuid-1" "fs-alpha" "blue sky" false 2 (Some 1700000000)] /\
  map Submission.filename (submissions st') =
    [mkFilename 1 Msg "blue sky"; mkFilename 2 Doc "blue sky"] /\
  max_seq (map Submission.filename (submissions st')) = Some 2.
Proof.
  destruct (@submit_interaction_count Sample.collaborators true
              Sample.message_and_file Sample.g_alice Sample.one_pending "hello"
              eq_refl eq_refl eq_refl)
    as (_ & Hsrc & _ & _ & Hsub & _ & _).
  split; [exact Hsrc|]. rewrite Hsub. split; reflexivity.
Defined.

Lemma pending_iff_no_interaction_witness :
  let st := (@create Sample.collaborators Sample.create_from_tabA Sample.one_tab).2 in
  @reachable Sample.collaborators st /\
  sources st = [Sample.alice] /\
  forall s, s ∈ sources st ->
    Source.pending s = Z.eqb (Source.interaction_count s) 0.
Proof.
  intros st.
  assert (Hreach : @reachable Sample.collaborators st).
  { apply (reachable_step Sample.one_tab).
    - apply reachable_init. reflexivity.
    - apply step_create. }
  split; [exact Hreach|]. split; [reflexivity|].
  exact (proj1 (@pending_iff_no_interaction Sample.collaborators st Hreach)).
Defined.

(** C2. The code does not keep a source that has submitted from the
    reaper.  [delete_pending_source] tests [pending] on the object that
    [find_pending_sources] loaded, not on the row: when the source
    submits between the query and the loop of [remove_pending_sources],
    the loop still deletes its row, which by then is not pending and
    has [interaction_count] 1, and leaves its submission without a
    source. *)
Theorem reaper_deletes_a_source_that_has_submitted :
  let st0 := Sample.one_pending in
  (* the reaper runs its query *)
  let found := find_pending_sources 0 st0 in
  (* the source submits a message *)
  let st1 := (@submit Sample.collaborators true Sample.message_only
                      Sample.g_alice st0).2 in
  (* the reaper runs its loop over what it found *)
  let r0 := mkRun st1 ["Found 1 pending sources"] [] in
  let r := (foldl (@remove_one Sample.collaborators) (r0, []) found).1 in
  found = [Sample.alice] /\
  sources st1 =
    [Source.mk 1 "uuid-1" "fs-alpha" "blue sky" false 1 (Some 1700000000)] /\
  db_ops r = [DbDelete 1; DbCommit] /\
  stdout r = ["Found 1 pending sources"] /\
  sources (run_state r) = [] /\
  submissions (run_state r) = [Submission.mk 1 (mkFilename 1 Msg "blue sky")].
Proof. vm_compute. repeat split. Qed.

Lemma reaper_reports_candidates_witness :
  (@remove_pending_sources Sample.collaborators 1 Sample.three_sources).1 = 0 /\
  last (stdout (@remove_pending_sources Sample.collaborators 1
                  Sample.three_sources).2)
    = Some "Deleted 1 pending sources".
Proof.
  destruct (@reaper_reports_candidates Sample.collaborators 1 Sample.three_sources)
    as (Hz & Hlast & _).
  - unfold sqlite_integer. lia.
  - split; [exact Hz|exact Hlast].
Defined.

(** C3, as stated, fails: with one candidate the reaper returns 0, not 1. *)
Lemma reaper_returns_zero_not_the_count :
  let st := Sample.one_pending in
  length (find_pending_sources 0 st) = 1%nat /\
  (@remove_pending_sources Sample.collaborators 0 st).1 = 0 /\
  (@remove_pending_sources Sample.collaborators 0 st).1 <>
    Z.of_nat (length (find_pending_sources 0 st)).
Proof. vm_compute. repeat split; discriminate. Qed.

(** The closing line counts the candidates even when none was deleted. *)
Example reaper_counts_failed_deletions :
  let r := (@remove_pending_sources Sample.failing_db 0 Sample.one_pending).2 in
  stdout r =
    ["Found 1 pending sources";
     "ERROR: Could not remove pending source: database is locked.";
     "Deleted 1 pending sources"] /\
  sources (run_state r) = [Sample.alice] /\
  db_ops r = [DbDelete 1; DbRollback].
Proof. vm_compute. repeat split. Qed.

Lemma create_duplicate_fails_logged_out_witness :
  let st' := (@create Sample.collaborators Sample.create_from_tabA
                      Sample.reused_codename).2 in
  (@create Sample.collaborators Sample.create_from_tabA Sample.reused_codename).1
    = Abort 500 /\
  sources st' = [Sample.alice] /\
  logged_in st' = false.
Proof.
  destruct (@create_duplicate_fails_logged_out Sample.collaborators
              Sample.create_from_tabA Sample.reused_codename
              "tabA" "alpha" "blue sky" {["tabA" := "alpha"]}
              eq_refl eq_refl eq_refl eq_refl eq_refl eq_refl)
    as (Hresp & (Hsrc & _) & _ & _ & Hout & _).
  split; [exact Hresp|]. split; [exact Hsrc|exact Hout].
Defined.

Lemma codenames_are_kept_per_tab_witness :
  exists m',
    session (generate "tabB" "beta" Sample.one_tab).2 !! "codenames" = Some (VDict m') /\
    m' !! "tabA" = Some "alpha" /\
    m' !! "tabB" = Some "beta".
Proof.
  destruct (@codenames_are_kept_per_tab Sample.collaborators Sample.one_tab
              {["tabA" := "alpha"]} "tabA" "alpha" "tabB" "beta"
              eq_refl eq_refl eq_refl ltac:(discriminate))
    as (m' & Hm & HA & HB & _).
  exists m'. split; [exact Hm|]. split; [exact HA|exact HB].
Defined.

Lemma deleted_reply_never_listed_witness :
  let first := (@lookup Sample.collaborators Sample.g_alice Sample.with_inbox).1 in
  (Sample.hidden_reply ∉ shown_replies first) /\
  shown_replies first = [Sample.open_reply].
Proof.
  intros first. split; [|reflexivity].
  refine (proj1 (@deleted_reply_never_listed Sample.collaborators Sample.g_alice
                   Sample.with_inbox Sample.hidden_reply 2 first eq_refl _)).
  vm_compute. left.
Defined.

Lemma delete_is_idempotent_witness :
  delete (Some "1-blue_sky-reply.gpg") Sample.g_alice Sample.with_inbox =
  (Redirect ".lookup",
   flash (Text "Reply deleted") "notification" Sample.with_inbox).
Proof.
  refine (proj1 (delete_is_idempotent "1-blue_sky-reply.gpg"
                   Sample.g_alice Sample.with_inbox Sample.hidden_reply _ eq_refl)
                eq_refl).
  simpl. apply NoDup_cons. split; [|apply NoDup_singleton].
  intros Hin. apply list_elem_of_singleton in Hin. discriminate.
Defined.

Lemma create_logged_in_changes_nothing_witness :
  sources (@create Sample.collaborators Sample.create_from_tabA Sample.one_pending).2
    = [Sample.alice] /\
  session (@create Sample.collaborators Sample.create_from_tabA Sample.one_pending).2
    = session Sample.one_pending.
Proof.
  destruct (@create_logged_in_changes_nothing Sample.collaborators
              Sample.create_from_tabA Sample.one_pending eq_refl)
    as (_ & _ & Hsrc & Hsess & _).
  split; [exact Hsrc|exact Hsess].
Defined.

(** C8, as stated, fails: a form that does not validate stores nothing,
    though the message is not empty and a file is attached. *)
Lemma submit_invalid_form_stores_nothing :
  let st' := (@submit Sample.collaborators false Sample.without_csrf_token
                      Sample.g_alice Sample.one_pending).2 in
  form_msg Sample.without_csrf_token = Some "hello" /\
  files_fh Sample.without_csrf_token = Some (mkFileStorage "memo.pdf" "%PDF") /\
  submissions st' = submissions Sample.one_pending /\
  sources st' = sources Sample.one_pending /\
  length (submissions st') <> S (length (submissions Sample.one_pending)).
Proof. repeat split; try reflexivity. simpl. discriminate. Qed.

Lemma submit_drops_file_when_uploads_off_witness :
  let st' := (@submit Sample.collaborators false Sample.message_and_file
                      Sample.g_alice Sample.one_pending).2 in
  submissions st' = [Submission.mk 1 (mkFilename 1 Msg "blue sky")] /\
  sources st' =
    [Source.mk 1 "uuid-1" "fs-alpha" "blue sky" false 1 (Some 1700000000)].
Proof.
  destruct (@submit_drops_file_when_uploads_off Sample.collaborators
              Sample.message_and_file Sample.g_alice Sample.one_pending
              "hello" (mkFileStorage "memo.pdf" "%PDF")
              eq_refl eq_refl ltac:(discriminate) eq_refl)
    as (_ & Hsub & Hsrc & _).
  split; [exact Hsub|exact Hsrc].
Defined.

(** * Further properties of the two modules *)

Section Coverage.
Context {collaborators : Collaborators}.

(** ** Selection of the candidates *)

Lemma insert_desc_sorted {A : Type} (key : A -> Z) (x : A) (l : list A) :
  StronglySorted (fun a b => key b <= key a) l ->
  StronglySorted (fun a b => key b <= key a) (insert_desc key x l).
Proof.
  induction l as [|y l IH]; simpl; intros Hl.
  - repeat constructor.
  - apply StronglySorted_cons in Hl as [Hy Hl].
    destruct (Z.leb_spec (key y) (key x)) as [Hle|Hlt].
    + apply StronglySorted_cons. split; [|by apply StronglySorted_cons].
      constructor; [done|].
      eapply Forall_impl; [exact Hy|]. intros z Hz. simpl in Hz. lia.
    + apply StronglySorted_cons. split; [|by apply IH].
      rewrite insert_desc_perm. constructor; [lia|done].
Qed.

Lemma sort_desc_sorted {A : Type} (key : A -> Z) (l : list A) :
  StronglySorted (fun a b => key b <= key a) (sort_desc key l).
Proof.
  induction l as [|x l IH]; simpl; [constructor|].
  by apply insert_desc_sorted.
Qed.

(** X1. For a [keep_most_recent] that SQLite binds, the candidates of
    the reaper are the pending sources less at most [keep_most_recent]
    of them; they come in decreasing order of primary key, and no
    candidate has a higher key than a pending source that was
    skipped. *)
Theorem find_pending_sources_skips_newest (keep : Z) (st : State) :
  sqlite_integer keep ->
  let found := find_pending_sources keep st in
  exists kept,
    kept ++ found ≡ₚ List.filter Source.pending (sources st) /\
    length kept =
      Nat.min (Z.to_nat keep) (length (List.filter Source.pending (sources st))) /\
    StronglySorted id_desc found /\
    (forall k c, k ∈ kept -> c ∈ found -> Source.id c <= Source.id k).
Proof.
  intros _ found. subst found. unfold find_pending_sources.
  set (pend := List.filter Source.pending (sources st)).
  pose proof (sort_desc_sorted Source.id pend) as Hsorted.
  exists (take (Z.to_nat keep) (sort_desc Source.id pend)).
  rewrite take_drop. split; [apply sort_desc_perm|]. split.
  { rewrite length_take, (Permutation_length (sort_desc_perm _ _)). done. }
  rewrite <- (take_drop (Z.to_nat keep) (sort_desc Source.id pend)) in Hsorted.
  split.
  - by apply StronglySorted_app_1_r in Hsorted.
  - intros k c Hk Hc.
    apply (StronglySorted_app_1_elem_of _ _ _ k c Hsorted Hk Hc).
Qed.

(** ** Runs of the reaper *)

(** X2. When [keep_most_recent] is at least the number of pending
    sources, and is an integer that SQLite binds, the reaper finds no
    candidate: it prints two lines with the count 0, issues no database
    operation and leaves the state as it found it. *)
Theorem reaper_keeps_all_when_few (keep : Z) (st : State) :
  sqlite_integer keep ->
  Z.of_nat (length (List.filter Source.pending (sources st))) <= keep ->
  find_pending_sources keep st = [] /\
  remove_pending_sources keep st =
    (0, mkRun st ["Found 0 pending sources"; "Deleted 0 pending sources"] []).
Proof.
  intros _ Hkeep.
  assert (Hnone : find_pending_sources keep st = []).
  { unfold find_pending_sources. apply drop_ge.
    rewrite (Permutation_length (sort_desc_perm _ _)). lia. }
  split; [exact Hnone|].
  unfold remove_pending_sources. rewrite Hnone. reflexivity.
Qed.



Lemma filter_none {A : Type} (f : A -> bool) (l : list A) :
  (forall x, x ∈ l -> f x = false) -> List.filter f l = [].
Proof.
  induction l as [|x l IH]; intros Hf; simpl; [done|].
  rewrite Hf by by left. apply IH. intros y Hy. apply Hf. by right.
Qed.



Lemma with_sources_keys (st : State) :
  with_keys (keys st) (with_sources (sources st) st) = st.
Proof. by destruct st. Qed.

Lemma remove_one_touches (r : Run) (deleted : list Source.t) (c : Source.t) :
  let r' := (remove_one (r, deleted) c).1 in
  run_state r' =
  with_keys (keys (run_state r')) (with_sources (sources (run_state r')) (run_state r)).
Proof.
  unfold remove_one, delete_pending_source, delete_source_key_pair. simpl.
  destruct (run_state r) as [] eqn:Hst.
  case_bool_decide; simpl; rewrite ?Hst;
    destruct (Source.pending c); simpl; rewrite ?Hst;
    try destruct (db_delete_failure (Source.id c)); simpl; rewrite ?Hst; done.
Qed.

Lemma remove_loop_touches (found : list Source.t) (r : Run) (deleted : list Source.t) :
  let r' := (foldl remove_one (r, deleted) found).1 in
  run_state r' =
  with_keys (keys (run_state r')) (with_sources (sources (run_state r')) (run_state r)).
Proof.
  revert r deleted. induction found as [|c found IH]; intros r deleted.
  - simpl. by destruct (run_state r).
  - change (foldl remove_one (r, deleted) (c :: found))
      with (foldl remove_one (remove_one (r, deleted) c) found).
    pose proof (remove_one_touches r deleted c) as Hone.
    destruct (remove_one (r, deleted) c) as [r1 d1]. simpl in Hone.
    specialize (IH r1 d1). simpl in IH |- *.
    rewrite IH at 1. rewrite Hone. by destruct (run_state r).
Qed.

(** X5. A run of the reaper changes the table of sources and the key
    ring and nothing else: submissions, replies, the session, the
    stored files and the storage directories, also those of the sources
    it removed, are as before. *)
Theorem reaper_touches_sources_and_keys_only (keep : Z) (st : State) :
  let st' := run_state (remove_pending_sources keep st).2 in
  st' = with_keys (keys st') (with_sources (sources st') st) /\
  submissions st' = submissions st /\
  replies st' = replies st /\
  session st' = session st /\
  dirs st' = dirs st /\
  files st' = files st.
Proof.
  intros st'.
  assert (Hst : st' = with_keys (keys st') (with_sources (sources st') st)).
  { subst st'. unfold remove_pending_sources.
    set (r0 := print _ (mkRun st [] [])).
    pose proof (remove_loop_touches (find_pending_sources keep st) r0 []) as Hloop.
    destruct (foldl remove_one (r0, []) (find_pending_sources keep st)) as [r1 d1].
    simpl in Hloop |- *. exact Hloop. }
  split; [exact Hst|]. rewrite Hst. done.
Qed.

(** ** Listing the inbox *)

Lemma lookup_loop_spec (g : G) (inbox : list Reply.t)
      (acc : list DecryptedReply) (st : State) :
  (lookup_loop g inbox acc st).1 =
    acc ++ (inbox ≫= fun r => match read_and_decrypt g r with
                              | inl d => [d]
                              | inr _ => []
                              end) /\
  logger (lookup_loop g inbox acc st).2 =
    logger st ++ (inbox ≫= fun r => match read_and_decrypt g r with
                                    | inl _ => []
                                    | inr line => [line]
                                    end).
Proof.
  revert acc st. induction inbox as [|r inbox IH]; intros acc st; simpl.
  - by rewrite !app_nil_r.
  - destruct (read_and_decrypt g r) as [d|line]; simpl.
    + destruct (IH (acc ++ [d]) st) as [-> ->]. by rewrite <- app_assoc.
    + destruct (IH acc (log line st)) as [-> ->]. simpl. by rewrite <- app_assoc.
Qed.

Lemma read_and_decrypt_reply (g : G) (r : Reply.t) (d : DecryptedReply) :
  read_and_decrypt g r = inl d -> reply d = r.
Proof.
  unfold read_and_decrypt.
  destruct (read_reply _ _) as [[contents mtime]|]; [|done].
  destruct (decrypt _ _); [|done]. by intros [= <-].
Qed.

Lemma lookup_page (g : G) (st : State) (page : LookupPage) :
  (lookup g st).1 = RenderLookup page ->
  page_replies page =
    sort_desc date (lookup_loop g (source_inbox g st) [] st).1.
Proof.
  unfold lookup.
  destruct (lookup_loop g (source_inbox g st) [] st) as [shown st1].
  destruct (bool_decide _); simpl;
    destruct (_ !! "token"); simpl; intros [= <-] || discriminate; done.
Qed.

Lemma skipped_length (g : G) (l : list Reply.t) :
  length (l ≫= fun r => match read_and_decrypt g r with
                        | inl _ => []
                        | inr line => [line]
                        end) =
  length (List.filter (fun r => negb (readable g r)) l).
Proof.
  unfold readable. induction l as [|r l IH]; [done|].
  rewrite bind_cons, length_app, IH. simpl.
  by destruct (read_and_decrypt g r).
Qed.

Lemma shown_readable (g : G) (l : list Reply.t) :
  map reply (l ≫= fun r => match read_and_decrypt g r with
                           | inl d => [d]
                           | inr _ => []
                           end) =
  List.filter (readable g) l.
Proof.
  unfold readable. induction l as [|r l IH]; [done|].
  rewrite bind_cons, map_app, IH. simpl.
  destruct (read_and_decrypt g r) as [d|line] eqn:Hr; simpl; [|done].
  by rewrite (read_and_decrypt_reply g r d Hr).
Qed.

(** X6. The replies that [lookup] hands to its page come in decreasing
    order of the modification time of their files. *)
Theorem lookup_sorts_by_date (g : G) (st : State) (page : LookupPage) :
  (lookup g st).1 = RenderLookup page ->
  StronglySorted date_desc (page_replies page).
Proof.
  intros Hpage. rewrite (lookup_page g st page Hpage).
  apply sort_desc_sorted.
Qed.

(** X7. The page of [lookup] shows, each once, exactly those replies of
    the source not marked as deleted whose file can be read and
    decrypted, each with the plaintext and date read for it; a reply
    that cannot be read or decoded is left out and one line is logged
    for it, whatever the response is. *)
Theorem lookup_shows_the_readable_replies (g : G) (st : State) :
  let skipped :=
    source_inbox g st ≫= fun r => match read_and_decrypt g r with
                                  | inl _ => []
                                  | inr line => [line]
                                  end in
  (exists line, logger (lookup g st).2 = logger st ++ skipped ++ [line]) /\
  length skipped =
    length (List.filter (fun r => negb (readable g r)) (source_inbox g st)) /\
  forall page, (lookup g st).1 = RenderLookup page ->
    map reply (page_replies page) ≡ₚ List.filter (readable g) (source_inbox g st) /\
    (forall d, d ∈ page_replies page -> read_and_decrypt g (reply d) = inl d).
Proof.
  intros skipped.
  destruct (lookup_loop_spec g (source_inbox g st) [] st) as [Hshown Hlog].
  fold skipped in Hlog. split; [|split].
  - unfold lookup.
    destruct (lookup_loop g (source_inbox g st) [] st) as [shown st1].
    simpl in Hlog. eexists.
    destruct (bool_decide _); simpl; destruct (_ !! "token"); simpl;
      rewrite Hlog, <- app_assoc; reflexivity.
  - apply skipped_length.
  - intros page Hpage. rewrite (lookup_page g st page Hpage), Hshown. simpl.
    split.
    + by rewrite sort_desc_perm, shown_readable.
    + intros d Hd. rewrite sort_desc_perm in Hd.
      apply list_elem_of_bind in Hd as (r & Hd & _).
      destruct (read_and_decrypt g r) as [d'|line] eqn:Hr;
        [|by apply elem_of_nil in Hd].
      apply list_elem_of_singleton in Hd. subst d'.
      by rewrite (read_and_decrypt_reply g r d Hr).
Qed.

Lemma lookup_loop_submissions (g : G) (inbox : list Reply.t)
      (acc : list DecryptedReply) (st : State) :
  submissions (lookup_loop g inbox acc st).2 = submissions st.
Proof.
  revert acc st. induction inbox as [|r inbox IH]; intros acc st; simpl; [done|].
  destruct (read_and_decrypt g r); [apply IH|]. by rewrite IH.
Qed.

Lemma lookup_session (g : G) (st : State) :
  session (lookup g st).2 =
  match (lookup g st).1 with
  | RenderLookup _ => session (build_form st)
  | _ => session st
  end.
Proof.
  unfold lookup.
  destruct (lookup_loop_frame g (source_inbox g st) [] st) as (_ & _ & Hse & _).
  destruct (lookup_loop g (source_inbox g st) [] st) as [shown st1].
  simpl in Hse.
  destruct (bool_decide _); simpl; rewrite Hse;
    destruct (session st !! "token"); simpl; by rewrite ?Hse.
Qed.

(** X8. Whatever its response, [lookup] leaves the source with a key
    pair: the key ring after the call is the one before with the id of
    the source added, and a second call adds nothing.  Sources,
    submissions and replies are not written, and of the session only
    the CSRF token: a call that renders the page leaves one in the
    session, and a session that has one is left as it is. *)
Theorem lookup_provisions_the_key (g : G) (st : State) :
  let st' := (lookup g st).2 in
  g_filesystem_id g ∈ keys st' /\
  keys st' = {[g_filesystem_id g]} ∪ keys st /\
  keys (lookup g st').2 = keys st' /\
  sources st' = sources st /\
  submissions st' = submissions st /\
  replies st' = replies st /\
  (forall k, k <> "csrf_token" -> session st' !! k = session st !! k) /\
  (forall page, (lookup g st).1 = RenderLookup page ->
                is_Some (session st' !! "csrf_token")) /\
  (is_Some (session st !! "csrf_token") -> session st' = session st).
Proof.
  assert (Hkeys : forall st0,
            keys (lookup g st0).2 = {[g_filesystem_id g]} ∪ keys st0 /\
            submissions (lookup g st0).2 = submissions st0).
  { intros st0. unfold lookup.
    destruct (lookup_loop_frame g (source_inbox g st0) [] st0) as (_ & _ & _ & Hk).
    pose proof (lookup_loop_submissions g (source_inbox g st0) [] st0) as Hsub.
    destruct (lookup_loop g (source_inbox g st0) [] st0) as [shown st1].
    simpl in Hk, Hsub.
    case_bool_decide as Hin; simpl; destruct (_ !! "token"); simpl;
      rewrite ?Hk, ?Hsub; (split; [|done]); try done;
      rewrite Hk in Hin; set_solver. }
  intros st'. destruct (Hkeys st) as [Hk Hsub]. fold st' in Hk, Hsub.
  destruct (lookup_frame g st) as (Hs & Hr & Hse). fold st' in Hs, Hr, Hse.
  pose proof (lookup_session g st) as Hsess. fold st' in Hsess.
  split; [rewrite Hk; set_solver|]. split; [exact Hk|].
  split; [destruct (Hkeys st') as [-> _]; rewrite Hk; set_solver|].
  split; [done|]. split; [done|]. split; [done|]. split; [exact Hse|]. split.
  - intros page Hpage. rewrite Hsess, Hpage. unfold build_form. simpl.
    destruct (session st !! "csrf_token") eqn:Hc; [by rewrite Hc|].
    by rewrite lookup_insert_eq.
  - intros [v Hv]. rewrite Hsess. unfold build_form. simpl. rewrite Hv.
    by destruct (lookup g st).1.
Qed.

(** ** Submissions that are turned down, and what an accepted one writes *)

Lemma flash_errors_spec (errors : list string) (st : State) :
  let st' := foldl (fun st error => flash (Text error) "error" st) st errors in
  st' = mkState (sources st) (submissions st) (replies st) (session st)
                (flashes st ++ map (fun e => (Text e, "error")) errors)
                (dirs st) (files st) (keys st) (checksum_queue st) (logger st).
Proof.
  revert st. induction errors as [|e errors IH]; intros st; simpl.
  - rewrite app_nil_r. by destruct st.
  - rewrite IH. simpl. by rewrite <- app_assoc.
Qed.

Lemma build_form_session (st : State) :
  (forall k, k <> "csrf_token" ->
             session (build_form st) !! k = session st !! k) /\
  is_Some (session (build_form st) !! "csrf_token") /\
  (is_Some (session st !! "csrf_token") -> session (build_form st) = session st).
Proof.
  unfold build_form. simpl.
  destruct (session st !! "csrf_token") as [v|] eqn:Hc; (split; [|split]).
  - done.
  - by rewrite Hc.
  - done.
  - intros k Hk. by rewrite lookup_insert_ne.
  - by rewrite lookup_insert_eq.
  - by intros [? ?].
Qed.

(** X9. A call of [submit] either passes the form validation and
    carries a message or a file that counts, or it stores nothing:
    sources, submissions, files, directories and the checksum queue are
    as before, whatever it flashes is an error, and of the session only
    the CSRF token is written, which the form leaves there when the
    session had none. *)
Theorem submit_stores_or_only_flashes_errors
        (allow : bool) (req : SubmitRequest) (g : G) (st : State) :
  let fh := if allow then files_fh req else None in
  let st' := (submit allow req g st).2 in
  (form_errors req = [] /\
   exists msg, form_msg req = Some msg /\ str_truthy msg || fh_truthy fh = true) \/
  (sources st' = sources st /\ submissions st' = submissions st /\
   files st' = files st /\ dirs st' = dirs st /\
   checksum_queue st' = checksum_queue st /\
   (forall k, k <> "csrf_token" -> session st' !! k = session st !! k) /\
   is_Some (session st' !! "csrf_token") /\
   (is_Some (session st !! "csrf_token") -> session st' = session st) /\
   exists new, flashes st' = flashes st ++ new /\
               Forall (fun f => f.2 = "error") new).
Proof.
  intros fh st'.
  destruct (build_form_session st) as (Hother & Htoken & Hsame).
  assert (Hcases :
    (form_errors req = [] /\
     exists msg, form_msg req = Some msg /\ str_truthy msg || fh_truthy fh = true) \/
    (sources st' = sources st /\ submissions st' = submissions st /\
     files st' = files st /\ dirs st' = dirs st /\
     checksum_queue st' = checksum_queue st /\
     session st' = session (build_form st) /\
     exists new, flashes st' = flashes st ++ new /\
                 Forall (fun f => f.2 = "error") new)).
  { subst st'. unfold submit.
    destruct (form_errors req) as [|e errors] eqn:Herr.
    - destruct (form_msg req) as [msg|] eqn:Hmsg.
      + fold fh. destruct (str_truthy msg || fh_truthy fh) eqn:Hany.
        * left. split; [done|]. by exists msg.
        * right. destruct allow; simpl; repeat split; try done;
            eexists; (split; [reflexivity|]); by repeat constructor.
      + right. simpl. repeat split; try done.
        exists []. by rewrite app_nil_r.
    - right. simpl. rewrite flash_errors_spec. simpl. repeat split; try done.
      eexists. split; [reflexivity|].
      apply Forall_forall. intros f Hf.
      apply list_elem_of_fmap in Hf as (x & -> & _). done. }
  destruct Hcases as [Hacc|(H1 & H2 & H3 & H4 & H5 & Hsess & Hflash)]; [by left|].
  right. rewrite Hsess. repeat split; done.
Qed.

Lemma submit_accepted_side_effects
      (allow : bool) (req : SubmitRequest) (g : G) (st : State) (msg : string) :
  form_errors req = [] ->
  form_msg req = Some msg ->
  str_truthy msg || fh_truthy (if allow then files_fh req else None) = true ->
  let st' := (submit allow req g st).2 in
  dirs st' = {[g_filesystem_id g]} ∪ dirs st /\
  keys st' = keys st /\
  checksum_queue st' =
    checksum_queue st ++ drop (length (submissions st)) (submissions st').
Proof.
  intros Herr Hmsg Hany st'. subst st'. unfold submit.
  rewrite Herr, Hmsg, Hany. simpl negb. cbv iota.
  destruct (str_truthy msg) eqn:Hm;
    destruct (if allow then files_fh req else None) as [x|] eqn:Hfh;
    simpl in Hany |- *;
    try destruct (str_truthy (fs_filename x)) eqn:Hx; simpl in Hany |- *;
    try discriminate;
    repeat match goal with
           | |- context [Z.eqb ?a ?b] => destruct (Z.eqb a b)
           end; simpl;
    case_bool_decide; simpl;
    rewrite ?drop_app_length; (split; [set_solver|done]).
Qed.

(** X10. A call of [submit] that is accepted leaves the storage
    directory of the source in place, creating it when it is missing,
    hands the submissions it created, and no others, to the checksum
    queue in the order of their creation, and leaves the key ring
    alone. *)
Theorem submit_makes_directory_and_queues_checksums
        (allow : bool) (req : SubmitRequest) (g : G) (st : State) (msg : string) :
  form_errors req = [] ->
  form_msg req = Some msg ->
  str_truthy msg || fh_truthy (if allow then files_fh req else None) = true ->
  let st' := (submit allow req g st).2 in
  let created := drop (length (submissions st)) (submissions st') in
  g_filesystem_id g ∈ dirs st' /\
  dirs st ⊆ dirs st' /\
  submissions st' = submissions st ++ created /\
  (1 <= length created <= 2)%nat /\
  checksum_queue st' = checksum_queue st ++ created /\
  keys st' = keys st.
Proof.
  intros Herr Hmsg Hany st' created.
  destruct (submit_accepted_side_effects allow req g st msg Herr Hmsg Hany)
    as (Hdirs & Hkeys & Hqueue).
  destruct (submit_accepted allow req g st msg Herr Hmsg Hany)
    as (_ & _ & Hsub & _).
  fold st' in Hdirs, Hkeys, Hqueue, Hsub. fold created in Hqueue.
  split; [rewrite Hdirs; set_solver|]. split; [rewrite Hdirs; set_solver|].
  assert (Hcreated : submissions st' = submissions st ++ created).
  { subst created. rewrite Hsub at 1. by rewrite Hsub, drop_app_length. }
  split; [exact Hcreated|]. split; [|done].
  subst created. rewrite Hsub, drop_app_length, length_map, length_app.
  destruct (str_truthy msg), (fh_truthy _); simpl in *; try discriminate; lia.
Qed.

(** X11. A call of [submit] that is accepted writes one row of the
    table of sources, the one with the primary key of [g.source]: it is
    no longer pending and carries the time of the call; every other
    row stays where and as it was. *)
Theorem submit_writes_one_source_row
        (allow : bool) (req : SubmitRequest) (g : G) (st : State) (msg : string) :
  form_errors req = [] ->
  form_msg req = Some msg ->
  str_truthy msg || fh_truthy (if allow then files_fh req else None) = true ->
  let st' := (submit allow req g st).2 in
  length (sources st') = length (sources st) /\
  (forall i s, sources st !! i = Some s ->
     Source.id s <> Source.id (g_source g) -> sources st' !! i = Some s) /\
  (forall i s, sources st !! i = Some s ->
     Source.id s = Source.id (g_source g) ->
     exists s', sources st' !! i = Some s' /\
       Source.pending s' = false /\
       Source.last_updated s' = Some (utcnow req) /\
       Source.interaction_count (g_source g) < Source.interaction_count s' /\
       Source.filesystem_id s' = Source.filesystem_id (g_source g)).
Proof.
  intros Herr Hmsg Hany st'.
  destruct (submit_accepted allow req g st msg Herr Hmsg Hany)
    as (_ & Hsrc & _).
  fold st' in Hsrc. rewrite Hsrc. unfold update_source.
  split; [by rewrite length_map|]. split.
  - intros i s Hi Hne. rewrite list_lookup_fmap, Hi. simpl.
    apply Z.eqb_neq in Hne. by rewrite Hne.
  - intros i s Hi Heq. eexists. split.
    + rewrite list_lookup_fmap, Hi. simpl.
      apply Z.eqb_eq in Heq. by rewrite Heq.
    + simpl. repeat split; try done.
      destruct (str_truthy msg), (fh_truthy _); simpl in *; try discriminate; lia.
Qed.

(** ** What each operation leaves of submissions and replies *)

Lemma generate_frame (tab_id codename : string) (st : State) :
  submissions (generate tab_id codename st).2 = submissions st /\
  replies (generate tab_id codename st).2 = replies st.
Proof.
  unfold generate. destruct (logged_in st); [done|].
  destruct (session st !! "codenames") as [[]|]; done.
Qed.

Lemma create_frame (req : CreateRequest) (st : State) :
  submissions (create req st).2 = submissions st /\
  replies (create req st).2 = replies st.
Proof.
  unfold create. destruct (session_get_truthy "logged_in" st); [done|].
  destruct (form_tab_id req) as [tab_id|]; [|done].
  destruct (session st !! "codenames") as [[| |d]|]; try done.
  destruct (d !! tab_id) as [codename|]; [|done].
  destruct (display_id req) as [designation|]; [|done].
  simpl. destruct (duplicate_filesystem_id _ _); [done|].
  destruct (bool_decide _); done.
Qed.

Lemma lookup_submissions (g : G) (st : State) :
  submissions (lookup g st).2 = submissions st.
Proof.
  unfold lookup.
  pose proof (lookup_loop_submissions g (source_inbox g st) [] st) as Hsub.
  destruct (lookup_loop g (source_inbox g st) [] st) as [shown st1].
  simpl in Hsub.
  destruct (bool_decide _); simpl; destruct (_ !! "token"); simpl; done.
Qed.

Lemma delete_submissions (name : option string) (g : G) (st : State) :
  submissions (delete name g st).2 = submissions st.
Proof.
  unfold delete. destruct name as [name|]; [|done].
  destruct (get_one_or_else _); done.
Qed.

Lemma batch_delete_submissions (g : G) (st : State) :
  submissions (batch_delete g st).2 = submissions st.
Proof.
  unfold batch_delete. destruct (Nat.eqb _ 0); [done|]. simpl.
  by apply (foldl_frame submissions).
Qed.

Lemma logout_frame (locale : string) (st : State) :
  submissions (logout locale st).2 = submissions st /\
  replies (logout locale st).2 = replies st.
Proof. unfold logout. by destruct (logged_in st). Qed.

Lemma submit_replies (allow : bool) (req : SubmitRequest) (g : G) (st : State) :
  replies (submit allow req g st).2 = replies st.
Proof.
  destruct (form_errors req) as [|e errors] eqn:Herr.
  2:{ unfold submit. rewrite Herr. simpl. by rewrite (foldl_frame replies). }
  destruct (form_msg req) as [msg|] eqn:Hmsg.
  2:{ unfold submit. by rewrite Herr, Hmsg. }
  destruct (str_truthy msg || fh_truthy (if allow then files_fh req else None))
    eqn:Hany.
  2:{ unfold submit. rewrite Herr, Hmsg, Hany. by destruct allow. }
  by destruct (submit_accepted allow req g st msg Herr Hmsg Hany)
    as (_ & _ & _ & _ & _ & Hrep & _).
Qed.

Lemma remove_pending_sources_frame (keep : Z) (st : State) :
  let st' := run_state (remove_pending_sources keep st).2 in
  st' = with_keys (keys st') (with_sources (sources st') st).
Proof.
  unfold remove_pending_sources.
  set (r0 := print _ (mkRun st [] [])).
  pose proof (remove_loop_touches (find_pending_sources keep st) r0 []) as Hloop.
  destruct (foldl remove_one (r0, []) (find_pending_sources keep st)) as [r1 d1].
  simpl in Hloop |- *. exact Hloop.
Qed.

(** The rows and submissions a call of [submit] leaves: those before,
    or those of an accepted call. *)
Lemma submit_store_cases (allow : bool) (req : SubmitRequest) (g : G) (st : State) :
  let st' := (submit allow req g st).2 in
  let c := Source.interaction_count (g_source g) in
  (sources st' = sources st /\ submissions st' = submissions st) \/
  exists units now created,
    1 <= units <= 2 /\
    sources st' =
      update_source
        (Source.set_last_updated now
           (Source.set_pending false
              (Source.set_interaction_count (c + units) (g_source g))))
        (sources st) /\
    submissions st' =
      submissions st ++ map (Submission.mk (Source.id (g_source g))) created /\
    NoDup (map seq created) /\
    Forall (fun f => c < seq f <= c + units) created.
Proof.
  intros st' c. subst st'.
  destruct (form_errors req) as [|e errors] eqn:Herr.
  2:{ left. unfold submit. rewrite Herr. simpl.
      split; [by rewrite (foldl_frame sources)|by rewrite (foldl_frame submissions)]. }
  destruct (form_msg req) as [msg|] eqn:Hmsg.
  2:{ left. unfold submit. by rewrite Herr, Hmsg. }
  destruct (str_truthy msg || fh_truthy (if allow then files_fh req else None))
    eqn:Hany.
  2:{ left. unfold submit. rewrite Herr, Hmsg, Hany. by destruct allow. }
  right. destruct (submit_accepted allow req g st msg Herr Hmsg Hany)
    as (_ & Hsrc & Hsub & _).
  eexists _, (utcnow req), _. split; [|split; [exact Hsrc|split; [exact Hsub|]]].
  - destruct (str_truthy msg), (fh_truthy _); simpl in *; lia.
  - fold c.
    destruct (str_truthy msg), (fh_truthy _); simpl in *; try discriminate;
      (split; [repeat constructor; set_solver by lia
              |repeat constructor; simpl; lia]).
Qed.

Lemma update_source_other (x s : Source.t) (l : list Source.t) :
  s ∈ l -> Source.id s <> Source.id x -> s ∈ update_source x l.
Proof.
  intros Hs Hne. unfold update_source. apply list_elem_of_fmap.
  exists s. split; [|done]. apply Z.eqb_neq in Hne. by rewrite Hne.
Qed.

(** ** Sequence numbers over the life of the store *)

Lemma submissions_ok_weaken (st st' : State) :
  submissions st' = submissions st ->
  (forall s, s ∈ sources st -> 0 < Source.interaction_count s -> s ∈ sources st') ->
  submissions_ok st -> submissions_ok st'.
Proof.
  intros Hsub Hsrc [Hnd Hall]. unfold submissions_ok. rewrite Hsub.
  split; [done|]. eapply Forall_impl; [exact Hall|].
  intros sub (s & Hs & Hid & Hseq). exists s. split; [|done].
  apply Hsrc; [done|lia].
Qed.

Lemma submit_submissions_ok (allow : bool) (req : SubmitRequest) (g : G) (st : State) :
  store_ok st -> submissions_ok st -> g_source g ∈ sources st ->
  submissions_ok (submit allow req g st).2.
Proof.
  intros [Hids Hrows] [Hnd Hall] Hg.
  rewrite Forall_forall in Hrows. destruct (Hrows _ Hg) as [Hc _].
  destruct (submit_store_cases allow req g st)
    as [[Hsrc Hsub]|(units & now & created & Hu & Hsrc & Hsub & Hcnd & Hcseq)].
  { apply (submissions_ok_weaken st); [done| |done]. intros s Hs _. by rewrite Hsrc. }
  set (after := Source.set_last_updated now _) in Hsrc.
  assert (Hold : forall sub, sub ∈ submissions st ->
            Submission.source_id sub = Source.id (g_source g) ->
            seq (Submission.filename sub) <= Source.interaction_count (g_source g)).
  { intros sub Hsub' Hid. rewrite Forall_forall in Hall.
    destruct (Hall sub Hsub') as (s & Hs & Hsid & Hseq).
    assert (s = g_source g) as -> by (apply (NoDup_ids_inj (sources st)); congruence).
    lia. }
  unfold submissions_ok. rewrite Hsrc, Hsub. split.
  - rewrite map_app. apply NoDup_app. split; [done|]. split.
    + intros k Hk Hk'.
      apply list_elem_of_fmap in Hk as (sub & -> & Hsub').
      apply list_elem_of_fmap in Hk' as (sub' & Hkey & Hnew).
      apply list_elem_of_fmap in Hnew as (f & -> & Hf).
      unfold submission_key in Hkey. simpl in Hkey.
      injection Hkey as Hid Hseq.
      rewrite Forall_forall in Hcseq. specialize (Hcseq f Hf).
      specialize (Hold sub Hsub' Hid). lia.
    + rewrite map_map. unfold submission_key. simpl.
      rewrite <- (map_map seq (fun n => (Source.id (g_source g), n))).
      apply NoDup_fmap_2_strong; [|done].
      by intros n1 n2 _ _ [= ->].
  - apply Forall_app. split.
    + apply Forall_forall. intros sub Hsub'. rewrite Forall_forall in Hall.
      destruct (Hall sub Hsub') as (s & Hs & Hsid & Hseq).
      destruct (Z.eq_dec (Source.id s) (Source.id (g_source g))) as [Heq|Hne].
      * assert (s = g_source g) as -> by by apply (NoDup_ids_inj (sources st)).
        exists after. split; [by eapply update_source_elem|].
        split; [done|]. subst after. simpl. lia.
      * exists s. split; [by apply update_source_other|done].
    + apply Forall_forall. intros sub Hnew.
      apply list_elem_of_fmap in Hnew as (f & -> & Hf).
      rewrite Forall_forall in Hcseq. specialize (Hcseq f Hf).
      exists after. split; [by eapply update_source_elem|].
      split; [done|]. subst after. simpl. lia.
Qed.

Lemma step_submissions_ok (st st' : State) :
  store_ok st -> submissions_ok st -> step st st' -> submissions_ok st'.
Proof.
  intros Hst Hsub Hstep.
  destruct Hstep as [tab_id codename st|req st|g st Hg|allow req g st Hg
                    |name g st Hg|g st Hg|locale st|keep st].
  - apply (submissions_ok_weaken st); [apply generate_frame| |done].
    intros s Hs _. by rewrite generate_sources.
  - apply (submissions_ok_weaken st); [apply create_frame| |done].
    intros s Hs _. destruct (create_sources req st) as [->|(u & f & d & ->)]; [done|].
    apply elem_of_app. by left.
  - apply (submissions_ok_weaken st); [apply lookup_submissions| |done].
    intros s Hs _. by destruct (lookup_frame g st) as (-> & _).
  - by apply submit_submissions_ok.
  - apply (submissions_ok_weaken st); [apply delete_submissions| |done].
    intros s Hs _. by rewrite delete_sources.
  - apply (submissions_ok_weaken st); [apply batch_delete_submissions| |done].
    intros s Hs _. by rewrite batch_delete_sources.
  - apply (submissions_ok_weaken st); [apply logout_frame| |done].
    intros s Hs _. by rewrite logout_sources.
  - apply (submissions_ok_weaken st); [| |done].
    + by rewrite (remove_pending_sources_frame keep st).
    + intros s Hs Hpos. by apply remove_pending_sources_keeps.
Qed.

(** X12. Starting from a store without sources and submissions, after
    any sequence of operations no two submissions carry the same source
    and sequence number, and the sequence number of every submission
    lies between 1 and the [interaction_count] of its source, which is
    still in the store. *)
Theorem sequence_numbers_are_never_reused (st0 st : State) :
  sources st0 = [] -> submissions st0 = [] ->
  rtc step st0 st ->
  NoDup (map submission_key (submissions st)) /\
  forall sub, sub ∈ submissions st ->
    exists s, s ∈ sources st /\
              Source.id s = Submission.source_id sub /\
              1 <= seq (Submission.filename sub) <= Source.interaction_count s.
Proof.
  intros Hsrc Hsub Hsteps.
  assert (Hinv : store_ok st /\ submissions_ok st).
  { revert st Hsteps. apply rtc_ind_r.
    - unfold store_ok, submissions_ok. rewrite Hsrc, Hsub.
      repeat split; constructor.
    - intros st1 st2 _ Hstep [Hst Hsubs]. split.
      + by apply (store_ok_step st1).
      + by apply (step_submissions_ok st1). }
  destruct Hinv as [_ [Hnd Hall]]. split; [done|].
  by apply Forall_forall.
Qed.

(** X13. No operation lowers the [interaction_count] of a source or
    makes a source pending again: a row found after a step under the
    primary key of a row before it has a count at least as high, and is
    not pending if the row before was not. *)
Theorem interaction_count_never_decreases (st st' : State) (s s' : Source.t) :
  store_ok st -> step st st' ->
  s ∈ sources st -> s' ∈ sources st' -> Source.id s' = Source.id s ->
  Source.interaction_count s <= Source.interaction_count s' /\
  (Source.pending s = false -> Source.pending s' = false).
Proof.
  intros [Hnd Hok] Hstep Hs Hs' Hid.
  assert (Hsame : s' ∈ sources st ->
            Source.interaction_count s <= Source.interaction_count s' /\
            (Source.pending s = false -> Source.pending s' = false)).
  { intros Hin. assert (s' = s) as -> by by apply (NoDup_ids_inj (sources st)).
    split; [lia|done]. }
  destruct Hstep as [tab_id codename st|req st|g st Hg|allow req g st Hg
                    |name g st Hg|g st Hg|locale st|keep st].
  - apply Hsame. by rewrite generate_sources in Hs'.
  - destruct (create_sources req st) as [Heq|(u & f & d & Heq)];
      rewrite Heq in Hs'; [by apply Hsame|].
    apply elem_of_app in Hs' as [Hs'|Hs']; [by apply Hsame|].
    apply list_elem_of_singleton in Hs'. subst s'. simpl in Hid.
    apply fresh_id_above in Hs. lia.
  - apply Hsame. by destruct (lookup_frame g st) as (<- & _).
  - destruct (submit_sources allow req g st) as [Heq|(units & now & Hu & Heq)];
      rewrite Heq in Hs'; [by apply Hsame|].
    apply update_source_inv in Hs' as [->|Hs']; [|by apply Hsame].
    simpl in Hid.
    assert (g_source g = s) as <- by by apply (NoDup_ids_inj (sources st)).
    simpl. split; [lia|done].
  - apply Hsame. by rewrite delete_sources in Hs'.
  - apply Hsame. by rewrite batch_delete_sources in Hs'.
  - apply Hsame. by rewrite logout_sources in Hs'.
  - apply Hsame.
    destruct (remove_pending_sources_spec keep st) as (_ & Heq & _).
    rewrite Heq in Hs'. by apply list_elem_of_In, filter_In in Hs' as [Hs' _];
      apply list_elem_of_In.
Qed.

(** ** Replies are hidden, never removed *)

Lemma reply_kept_refl (l : list Reply.t) : Forall2 reply_kept l l.
Proof. apply Forall_Forall2_diag, Forall_forall. intros r _. by repeat split. Qed.

Lemma update_reply_kept (r : Reply.t) (l : list Reply.t) :
  (forall x, x ∈ l -> Reply.id x = Reply.id r ->
     Reply.source_id x = Reply.source_id r /\ Reply.filename x = Reply.filename r) ->
  Forall2 reply_kept l (update_reply (Reply.set_deleted_by_source true r) l).
Proof.
  intros Hsame. unfold update_reply.
  apply Forall2_fmap_r, Forall_Forall2_diag, Forall_forall. intros x Hx. simpl.
  destruct (Z.eqb_spec (Reply.id x) (Reply.id r)) as [Heq|_].
  - destruct (Hsame x Hx Heq) as [Hsrc Hname]. by repeat split.
  - by repeat split.
Qed.

Lemma reply_kept_trans (l1 l2 l3 : list Reply.t) :
  Forall2 reply_kept l1 l2 -> Forall2 reply_kept l2 l3 -> Forall2 reply_kept l1 l3.
Proof.
  apply Forall2_trans.
  intros x y z (Hi & Hs & Hn & Hd) (Hi' & Hs' & Hn' & Hd').
  repeat split; try congruence. auto.
Qed.

Lemma reply_kept_same_row (l0 l : list Reply.t) (r x : Reply.t) :
  NoDup (map Reply.id l0) -> Forall2 reply_kept l0 l ->
  r ∈ l0 -> x ∈ l -> Reply.id x = Reply.id r ->
  Reply.source_id x = Reply.source_id r /\ Reply.filename x = Reply.filename r.
Proof.
  intros Hnd Hkept Hr Hx Hid.
  apply list_elem_of_lookup in Hx as [i Hi].
  destruct (Forall2_lookup_r _ _ _ _ _ Hkept Hi) as (x0 & Hi0 & Hi' & Hs & Hn & _).
  assert (x0 = r) as ->.
  { apply (NoDup_reply_ids_inj l0); try done; [|congruence].
    by apply list_elem_of_lookup_2 in Hi0. }
  done.
Qed.

Lemma batch_loop_kept (l0 found : list Reply.t) (st : State) :
  NoDup (map Reply.id l0) -> Forall2 reply_kept l0 (replies st) ->
  (forall r, r ∈ found -> r ∈ l0) ->
  Forall2 reply_kept l0
    (replies (foldl (fun st reply =>
                       with_replies
                         (update_reply (Reply.set_deleted_by_source true reply)
                                       (replies st)) st)
                    st found)).
Proof.
  intros Hnd. revert st. induction found as [|r found IH]; intros st Hkept Hin; simpl.
  - done.
  - apply IH; [|intros r' Hr'; apply Hin; by right]. simpl.
    apply (reply_kept_trans _ (replies st)); [done|].
    apply update_reply_kept. intros x Hx Hid.
    apply (reply_kept_same_row l0 (replies st)); try done. apply Hin. by left.
Qed.

(** X14. No operation removes, adds, renames or moves a reply, and none
    clears the flag [deleted_by_source]: with unique primary keys, the
    replies after a step are those before it, row by row, some with the
    flag newly set. *)
Theorem replies_are_only_ever_hidden (st st' : State) :
  step st st' ->
  NoDup (map Reply.id (replies st)) ->
  Forall2 reply_kept (replies st) (replies st').
Proof.
  intros Hstep Hnd.
  destruct Hstep as [tab_id codename st|req st|g st Hg|allow req g st Hg
                    |name g st Hg|g st Hg|locale st|keep st].
  - destruct (generate_frame tab_id codename st) as [_ ->]. apply reply_kept_refl.
  - destruct (create_frame req st) as [_ ->]. apply reply_kept_refl.
  - destruct (lookup_frame g st) as (_ & -> & _). apply reply_kept_refl.
  - rewrite submit_replies. apply reply_kept_refl.
  - unfold delete. destruct name as [name|]; [|apply reply_kept_refl].
    destruct (List.filter _ (replies st)) as [|r0 [|r1 rest]] eqn:Hq; simpl;
      try apply reply_kept_refl.
    apply update_reply_kept. intros x Hx Hid.
    assert (x = r0) as ->; [|done].
    apply (NoDup_reply_ids_inj (replies st)); try done.
    apply (delete_query_elem name g). rewrite Hq. by left.
  - unfold batch_delete. destruct (Nat.eqb _ 0); [apply reply_kept_refl|]. simpl.
    apply batch_loop_kept; [done|apply reply_kept_refl|].
    intros r Hr. unfold source_inbox in Hr.
    by apply list_elem_of_In, filter_In in Hr as [Hr _]; apply list_elem_of_In.
  - destruct (logout_frame locale st) as [_ ->]. apply reply_kept_refl.
  - rewrite (remove_pending_sources_frame keep st). apply reply_kept_refl.
Qed.

(** ** Deleting one reply, deleting all *)

(** X15. With unique primary keys, [delete] leaves every reply that
    belongs to another source or carries another filename where and as
    it was, whatever its outcome. *)
Theorem delete_leaves_other_replies
        (name : string) (g : G) (st : State) (i : nat) (x : Reply.t) :
  NoDup (map Reply.id (replies st)) ->
  replies st !! i = Some x ->
  Reply.source_id x <> Source.id (g_source g) \/ Reply.filename x <> name ->
  replies (delete (Some name) g st).2 !! i = Some x.
Proof.
  intros Hnd Hi Hother. unfold delete.
  destruct (List.filter _ (replies st)) as [|r0 [|r1 rest]] eqn:Hq; simpl; try done.
  unfold update_reply. rewrite list_lookup_fmap, Hi. simpl.
  destruct (Z.eqb_spec (Reply.id x) (Reply.id r0)) as [Heq|]; [|done].
  assert (Hr0 : r0 ∈ replies st /\ Reply.filename r0 = name /\
                Reply.source_id r0 = Source.id (g_source g)).
  { apply (delete_query_elem name g). rewrite Hq. by left. }
  destruct Hr0 as (Hr0 & Hname & Hsrc).
  assert (x = r0) as ->.
  { apply (NoDup_reply_ids_inj (replies st)); try done.
    by apply list_elem_of_lookup_2 in Hi. }
  destruct Hother; congruence.
Qed.

(** X16. A filename that no reply of the calling source carries, even
    when a reply of another source does, makes [delete] abort: nothing
    is flashed and no reply is touched. *)
Theorem delete_refuses_foreign_reply (name : string) (g : G) (st : State) :
  (forall r, r ∈ replies st -> Reply.filename r = name ->
             Reply.source_id r <> Source.id (g_source g)) ->
  (delete (Some name) g st).1 = AbortNotOne /\
  replies (delete (Some name) g st).2 = replies st /\
  flashes (delete (Some name) g st).2 = flashes st /\
  sources (delete (Some name) g st).2 = sources st.
Proof.
  intros Hforeign. unfold delete.
  rewrite filter_none; [done|].
  intros r Hr. destruct (String.eqb_spec (Reply.filename r) name) as [Hname|]; [|done].
  simpl. apply Z.eqb_neq. by apply Hforeign.
Qed.

Lemma batch_loop_rows (found : list Reply.t) (st : State) (x : Reply.t) :
  x ∈ replies (foldl (fun st reply =>
                        with_replies
                          (update_reply (Reply.set_deleted_by_source true reply)
                                        (replies st)) st)
                     st found) ->
  (exists r, r ∈ found /\ x = Reply.set_deleted_by_source true r) \/
  (x ∈ replies st /\ forall r, r ∈ found -> Reply.id x <> Reply.id r).
Proof.
  revert st. induction found as [|r found IH]; intros st; simpl.
  - intros Hx. right. split; [done|]. intros r Hr. by apply elem_of_nil in Hr.
  - intros Hx. apply IH in Hx as [(r' & Hr' & ->)|[Hx Hids]].
    + left. exists r'. split; [by right|done].
    + simpl in Hx. unfold update_reply in Hx.
      apply list_elem_of_fmap in Hx as (y & Hy & Hin).
      change (Reply.id (Reply.set_deleted_by_source true r))
        with (Reply.id r) in Hy.
      destruct (Z.eqb_spec (Reply.id y) (Reply.id r)) as [Heq|Hne].
      * left. exists r. split; [by left|done].
      * subst y. right. split; [done|].
        intros r' Hr'. apply elem_of_cons in Hr' as [->|Hr']; [done|by apply Hids].
Qed.

Lemma batch_loop_keeps (found : list Reply.t) (st : State) (i : nat) (x : Reply.t) :
  replies st !! i = Some x ->
  (forall r, r ∈ found -> Reply.id x <> Reply.id r) ->
  replies (foldl (fun st reply =>
                    with_replies
                      (update_reply (Reply.set_deleted_by_source true reply)
                                    (replies st)) st)
                 st found) !! i = Some x.
Proof.
  revert st. induction found as [|r found IH]; intros st Hi Hids; simpl; [done|].
  apply IH; [|intros r' Hr'; apply Hids; by right].
  simpl. unfold update_reply. rewrite list_lookup_fmap, Hi. simpl.
  assert (Hne : Reply.id x <> Reply.id r) by (apply Hids; by left).
  apply Z.eqb_neq in Hne. by rewrite Hne.
Qed.

(** X17. After [batch_delete] the source has no reply left that is not
    marked as deleted, so a [lookup] that follows shows none; with
    unique primary keys the replies of every other source are where and
    as they were. *)
Theorem batch_delete_empties_the_inbox (g : G) (st : State) :
  let st' := (batch_delete g st).2 in
  source_inbox g st' = [] /\
  shown_replies (lookup g st').1 = [] /\
  (NoDup (map Reply.id (replies st)) ->
   forall i x, replies st !! i = Some x ->
     Reply.source_id x <> Source.id (g_source g) ->
     replies st' !! i = Some x).
Proof.
  intros st'.
  assert (Hempty : source_inbox g st' = []).
  { subst st'. unfold batch_delete.
    destruct (Nat.eqb_spec (length (source_inbox g st)) 0) as [Hlen|_]; simpl.
    - by apply length_zero_iff_nil in Hlen.
    - unfold source_inbox at 1. apply filter_none. intros x Hx.
      apply batch_loop_rows in Hx as [(r & _ & ->)|[Hx Hids]].
      + simpl. apply andb_false_r.
      + destruct (Z.eqb_spec (Reply.source_id x) (Source.id (g_source g)))
          as [Hsrc|]; [|done].
        destruct (Reply.deleted_by_source x) eqn:Hdel; [done|]. exfalso.
        apply (Hids x); [|done]. unfold source_inbox.
        apply list_elem_of_In, filter_In. split; [by apply list_elem_of_In|].
        rewrite Hdel. apply andb_true_iff. split; [by apply Z.eqb_eq|done]. }
  split; [exact Hempty|]. split.
  - unfold lookup. rewrite Hempty. simpl.
    destruct (bool_decide _); simpl; destruct (_ !! "token"); done.
  - intros Hnd i x Hi Hsrc. subst st'. unfold batch_delete.
    destruct (Nat.eqb _ 0); [done|]. simpl.
    apply batch_loop_keeps; [done|].
    intros r Hr Hid. unfold source_inbox in Hr.
    apply list_elem_of_In, filter_In in Hr as [Hr Hq].
    apply list_elem_of_In in Hr. apply andb_prop in Hq as [Hq _].
    apply Z.eqb_eq in Hq.
    assert (x = r) as ->; [|done].
    apply (NoDup_reply_ids_inj (replies st)); try done.
    by apply list_elem_of_lookup_2 in Hi.
Qed.

(** ** Opening an account *)

(** X18. When the visitor is not logged in, the tab id of the form has
    a codename, a designation is found, the codename is new and its
    directory does not exist, [create] inserts one source, pending and
    with no interaction, under the hash of that codename, makes its
    directory, logs the session in under the codename and drops the
    whole mapping of tab ids, also the entries of other tabs. *)
Theorem create_opens_the_account
        (req : CreateRequest) (st : State) (tab_id codename designation : string)
        (d : gmap string string) :
  session_get_truthy "logged_in" st = false ->
  form_tab_id req = Some tab_id ->
  session st !! "codenames" = Some (VDict d) ->
  d !! tab_id = Some codename ->
  display_id req = Some designation ->
  duplicate_filesystem_id (hash_codename codename) (sources st) = false ->
  hash_codename codename ∉ dirs st ->
  let st' := (create req st).2 in
  (create req st).1 = Redirect ".lookup" /\
  sources st' =
    sources st ++ [Source.mk (fresh_id (sources st)) (new_uuid req)
                             (hash_codename codename) designation true 0 None] /\
  dirs st' = {[hash_codename codename]} ∪ dirs st /\
  session st' !! "codename" = Some (VStr codename) /\
  session st' !! "logged_in" = Some (VBool true) /\
  session st' !! "codenames" = None /\
  (forall k, k <> "codename" -> k <> "logged_in" -> k <> "codenames" ->
             session st' !! k = session st !! k).
Proof.
  intros Hout Htab Hmap Hcode Hname Hdup Hdir. unfold create.
  rewrite Hout, Htab, Hmap, Hcode, Hname. simpl. rewrite Hdup. simpl.
  rewrite bool_decide_eq_false_2 by done. simpl.
  split; [done|]. split; [done|]. split; [done|]. split; [|split; [|split]].
  - rewrite lookup_insert_ne by done. rewrite lookup_delete_ne by done.
    by rewrite lookup_insert_eq.
  - by rewrite lookup_insert_eq.
  - rewrite lookup_insert_ne by done. by rewrite lookup_delete_eq.
  - intros k Hk1 Hk2 Hk3.
    rewrite lookup_insert_ne by done. rewrite lookup_delete_ne by done.
    by rewrite lookup_insert_ne.
Qed.

(** X19. When the visitor is not logged in and the tab id cannot be
    resolved, because the form has none, the session has no mapping, or
    the mapping has no entry for it, [create] raises and leaves the
    state as it was: no codename is taken and no source is made. *)
Theorem create_raises_on_unknown_tab (req : CreateRequest) (st : State) :
  session_get_truthy "logged_in" st = false ->
  form_tab_id req = None \/
  session st !! "codenames" = None \/
  (exists tab_id d, form_tab_id req = Some tab_id /\
                    session st !! "codenames" = Some (VDict d) /\
                    d !! tab_id = None) ->
  (exists e, (create req st).1 = Raised e) /\
  (create req st).2 = st.
Proof.
  intros Hout Hcase. unfold create. rewrite Hout.
  destruct Hcase as [->|[Hnone|(tab_id & d & -> & -> & ->)]].
  - split; [by eexists|done].
  - destruct (form_tab_id req); rewrite ?Hnone; (split; [by eexists|done]).
  - split; [by eexists|done].
Qed.

(** X20. When no designation can be found for the new source, [create]
    makes no source and does not log in, yet it has put the codename
    into the session and dropped the mapping of tab ids: a second
    [create] from the same session raises for the missing mapping and
    changes nothing. *)
Theorem create_without_designation_cannot_be_retried
        (req : CreateRequest) (st : State) (tab_id codename : string)
        (d : gmap string string) :
  session st !! "logged_in" = None ->
  form_tab_id req = Some tab_id ->
  session st !! "codenames" = Some (VDict d) ->
  d !! tab_id = Some codename ->
  display_id req = None ->
  let st' := (create req st).2 in
  (create req st).1 = Redirect ".index" /\
  sources st' = sources st /\
  dirs st' = dirs st /\
  session st' !! "codename" = Some (VStr codename) /\
  session st' !! "logged_in" = None /\
  session st' !! "codenames" = None /\
  forall req',
    (create req' st').2 = st' /\
    (create req' st').1 =
      match form_tab_id req' with
      | Some _ => Raised (KeyError "codenames")
      | None => Raised (BadRequestKeyError "tab_id")
      end.
Proof.
  intros Hout Htab Hmap Hcode Hname st'.
  assert (Hst' : st' =
            flash (Text ("There was a temporary problem creating your account. " +:+
                         "Please try again.")) "error"
                  (log "ValueError"
                       (session_del "codenames"
                          (session_set "codename" (VStr codename) st)))).
  { subst st'. unfold create, session_get_truthy.
    by rewrite Hout, Htab, Hmap, Hcode, Hname. }
  assert (Hresp : (create req st).1 = Redirect ".index").
  { unfold create, session_get_truthy.
    by rewrite Hout, Htab, Hmap, Hcode, Hname. }
  assert (Hin : session st' !! "logged_in" = None).
  { rewrite Hst'. simpl. rewrite lookup_delete_ne by done.
    by rewrite lookup_insert_ne. }
  assert (Hmap' : session st' !! "codenames" = None).
  { rewrite Hst'. simpl. by rewrite lookup_delete_eq. }
  split; [exact Hresp|]. split; [by rewrite Hst'|]. split; [by rewrite Hst'|].
  split; [|split; [exact Hin|split; [exact Hmap'|]]].
  - rewrite Hst'. simpl. rewrite lookup_delete_ne by done.
    by rewrite lookup_insert_eq.
  - intros req'. unfold create, session_get_truthy. rewrite Hin.
    destruct (form_tab_id req'); [rewrite Hmap'|]; done.
Qed.

(** ** Showing a codename, logging out *)

(** X21. [generate] writes neither the store nor the login: sources,
    submissions, replies, directories and keys are as before, and so
    are the logged-in flag and the codename of the session; for a
    visitor who is logged in the whole session is as before. *)
Theorem generate_writes_no_account (tab_id codename : string) (st : State) :
  let st' := (generate tab_id codename st).2 in
  sources st' = sources st /\ submissions st' = submissions st /\
  replies st' = replies st /\ dirs st' = dirs st /\ keys st' = keys st /\
  session st' !! "logged_in" = session st !! "logged_in" /\
  session st' !! "codename" = session st !! "codename" /\
  (logged_in st = true ->
     session st' = session st /\ (generate tab_id codename st).1 = Redirect ".lookup").
Proof.
  unfold generate. destruct (logged_in st) eqn:Hin; simpl.
  - repeat split; done.
  - destruct (session st !! "codenames") as [[| |d]|]; simpl;
      rewrite ?lookup_insert_ne by done; repeat split; done.
Qed.

(** X22. For a visitor who is logged in, [logout] leaves a session that
    holds the locale and nothing else, so that the visitor is logged
    out and no codename, token or mapping of tab ids remains, and it
    leaves the store alone; for any other visitor it changes nothing. *)
Theorem logout_clears_the_session (locale : string) (st : State) :
  let st' := (logout locale st).2 in
  (logged_in st = true ->
     (logout locale st).1 = RenderLogout /\
     session st' = {["locale" := VStr locale]} /\
     logged_in st' = false /\
     session_get_truthy "logged_in" st' = false /\
     (forall k, k <> "locale" -> session st' !! k = None) /\
     st' = with_session (session st') st) /\
  (logged_in st = false -> logout locale st = (Redirect ".index", st)).
Proof.
  unfold logout. destruct (logged_in st) eqn:Hin; simpl; split; try done.
  intros _. split; [done|]. split; [apply insert_empty|].
  unfold logged_in, session_get_truthy. simpl.
  rewrite lookup_insert_ne by done. rewrite lookup_empty.
  repeat split; try done.
  intros k Hk. rewrite lookup_insert_ne by done. apply lookup_empty.
Qed.

End Coverage.

(** * The further properties on sample data *)

Lemma find_pending_sources_skips_newest_witness :
  find_pending_sources 1 Sample.four_sources = [Sample.bob; Sample.alice] /\
  exists kept,
    kept ++ find_pending_sources 1 Sample.four_sources
      ≡ₚ [Sample.alice; Sample.dave; Sample.bob] /\
    length kept = 1%nat /\
    StronglySorted id_desc (find_pending_sources 1 Sample.four_sources) /\
    (forall k c, k ∈ kept -> c ∈ find_pending_sources 1 Sample.four_sources ->
                 Source.id c <= Source.id k).
Proof.
  split; [reflexivity|].
  apply (find_pending_sources_skips_newest 1 Sample.four_sources).
  unfold sqlite_integer. lia.
Defined.

Lemma reaper_keeps_all_when_few_witness :
  remove_pending_sources (H := Sample.collaborators) 2 Sample.three_sources =
  (0, mkRun Sample.three_sources
            ["Found 0 pending sources"; "Deleted 0 pending sources"] []).
Proof.
  refine (proj2 (@reaper_keeps_all_when_few Sample.collaborators 2
                   Sample.three_sources _ _)).
  - unfold sqlite_integer. lia.
  - simpl. lia.
Defined.



Lemma lookup_sorts_by_date_witness :
  map reply
    (match (@lookup Sample.dated Sample.g_alice Sample.three_replies).1 with
     | RenderLookup page => page_replies page
     | _ => []
     end)
    = [Sample.third_reply; Sample.second_reply; Sample.first_reply] /\
  StronglySorted date_desc
    [mkDecryptedReply Sample.third_reply "enc:3-blue_sky-reply.gpg" 30;
     mkDecryptedReply Sample.second_reply "enc:2-blue_sky-reply.gpg" 20;
     mkDecryptedReply Sample.first_reply "enc:1-blue_sky-reply.gpg" 10].
Proof.
  split; [reflexivity|].
  exact (@lookup_sorts_by_date Sample.dated Sample.g_alice Sample.three_replies
           (mkLookupPage (VStr "t") "uuid-1" true "alpha"
              [mkDecryptedReply Sample.third_reply "enc:3-blue_sky-reply.gpg" 30;
               mkDecryptedReply Sample.second_reply "enc:2-blue_sky-reply.gpg" 20;
               mkDecryptedReply Sample.first_reply "enc:1-blue_sky-reply.gpg" 10]
              None)
           eq_refl).
Defined.

Lemma submit_makes_directory_and_queues_checksums_witness :
  let st' := (@submit Sample.collaborators true Sample.message_and_file
                      Sample.g_alice Sample.one_pending).2 in
  "fs-alpha" ∈ dirs st' /\
  checksum_queue st' =
    [Submission.mk 1 (mkFilename 1 Msg "blue sky");
     Submission.mk 1 (mkFilename 2 Doc "blue sky")].
Proof.
  destruct (@submit_makes_directory_and_queues_checksums Sample.collaborators true
              Sample.message_and_file Sample.g_alice Sample.one_pending "hello"
              eq_refl eq_refl eq_refl)
    as (Hdir & _ & _ & _ & Hqueue & _).
  split; [exact Hdir|exact Hqueue].
Defined.

Lemma submit_writes_one_source_row_witness :
  length (sources (@submit Sample.collaborators true Sample.message_and_file
                           Sample.g_alice Sample.one_pending).2) = 1%nat.
Proof.
  exact (proj1 (@submit_writes_one_source_row Sample.collaborators true
                  Sample.message_and_file Sample.g_alice Sample.one_pending "hello"
                  eq_refl eq_refl eq_refl)).
Defined.

Lemma sequence_numbers_are_never_reused_witness :
  let st1 := (@create Sample.collaborators Sample.create_from_tabA Sample.one_tab).2 in
  let st2 := (@submit Sample.collaborators true Sample.message_and_file
                      Sample.g_alice st1).2 in
  map submission_key (submissions st2) = [(1, 1); (1, 2)] /\
  NoDup (map submission_key (submissions st2)).
Proof.
  intros st1 st2. split; [reflexivity|].
  refine (proj1 (@sequence_numbers_are_never_reused Sample.collaborators
                   Sample.one_tab st2 eq_refl eq_refl _)).
  apply (rtc_l _ _ st1); [apply step_create|].
  apply rtc_once. apply step_submit. left.
Defined.

Lemma interaction_count_never_decreases_witness :
  Source.interaction_count Sample.alice <=
  Source.interaction_count
    (Source.mk 1 "uuid-1" "fs-alpha" "blue sky" false 2 (Some 1700000000)).
Proof.
  refine (proj1 (@interaction_count_never_decreases Sample.collaborators
                   Sample.one_pending
                   (@submit Sample.collaborators true Sample.message_and_file
                            Sample.g_alice Sample.one_pending).2
                   Sample.alice
                   (Source.mk 1 "uuid-1" "fs-alpha" "blue sky" false 2 (Some 1700000000))
                   _ _ _ _ eq_refl)).
  - split; simpl.
    + apply NoDup_singleton.
    + apply Forall_singleton. split; [simpl; lia|reflexivity].
  - apply step_submit. left.
  - left.
  - left.
Defined.

Lemma replies_are_only_ever_hidden_witness :
  Forall2 reply_kept (replies Sample.with_inbox)
    (replies (delete (Some "2-blue_sky-reply.gpg") Sample.g_alice Sample.with_inbox).2).
Proof.
  refine (@replies_are_only_ever_hidden Sample.collaborators Sample.with_inbox _ _ _).
  - apply (step_delete (Some "2-blue_sky-reply.gpg") Sample.g_alice). left.
  - simpl. apply NoDup_cons. split; [set_solver by lia|apply NoDup_singleton].
Defined.

Lemma delete_leaves_other_replies_witness :
  replies (delete (Some "2-blue_sky-reply.gpg") Sample.g_alice Sample.two_inboxes).2
    !! 2%nat = Some Sample.foreign_reply.
Proof.
  refine (delete_leaves_other_replies "2-blue_sky-reply.gpg" Sample.g_alice
            Sample.two_inboxes 2 Sample.foreign_reply _ eq_refl _).
  - simpl. repeat (apply NoDup_cons; split; [set_solver by lia|]). apply NoDup_nil_2.
  - left. discriminate.
Defined.

Lemma delete_refuses_foreign_reply_witness :
  (delete (Some "1-red_sun-reply.gpg") Sample.g_alice Sample.two_inboxes).1
    = AbortNotOne.
Proof.
  refine (proj1 (delete_refuses_foreign_reply "1-red_sun-reply.gpg" Sample.g_alice
                   Sample.two_inboxes _)).
  intros r Hr Hname. simpl in Hr.
  apply elem_of_cons in Hr as [->|Hr]; [simpl in Hname; discriminate Hname|].
  apply elem_of_cons in Hr as [->|Hr]; [simpl in Hname; discriminate Hname|].
  apply elem_of_cons in Hr as [->|Hr]; [simpl; discriminate|].
  by apply elem_of_nil in Hr.
Defined.

Lemma create_opens_the_account_witness :
  sources (@create Sample.collaborators Sample.create_from_tabA Sample.one_tab).2
    = [Sample.alice] /\
  session (@create Sample.collaborators Sample.create_from_tabA Sample.one_tab).2
    !! "codenames" = None.
Proof.
  destruct (@create_opens_the_account Sample.collaborators Sample.create_from_tabA
              Sample.one_tab "tabA" "alpha" "blue sky" {["tabA" := "alpha"]}
              eq_refl eq_refl eq_refl eq_refl eq_refl eq_refl
              ltac:(simpl; set_solver))
    as (_ & Hsrc & _ & _ & _ & Hmap & _).
  split; [exact Hsrc|exact Hmap].
Defined.

Lemma create_raises_on_unknown_tab_witness :
  (@create Sample.collaborators Sample.create_from_tabA Sample.empty).2 = Sample.empty.
Proof.
  refine (proj2 (@create_raises_on_unknown_tab Sample.collaborators
                   Sample.create_from_tabA Sample.empty eq_refl _)).
  right. left. reflexivity.
Defined.

Lemma create_without_designation_cannot_be_retried_witness :
  let st' := (@create Sample.collaborators Sample.create_without_designation
                      Sample.one_tab).2 in
  session st' !! "codename" = Some (VStr "alpha") /\
  (@create Sample.collaborators Sample.create_from_tabA st').1
    = Raised (KeyError "codenames").
Proof.
  destruct (@create_without_designation_cannot_be_retried Sample.collaborators
              Sample.create_without_designation Sample.one_tab "tabA" "alpha"
              {["tabA" := "alpha"]} eq_refl eq_refl eq_refl eq_refl eq_refl)
    as (_ & _ & _ & Hcode & _ & _ & Hretry).
  split; [exact Hcode|].
  exact (proj2 (Hretry Sample.create_from_tabA)).
Defined.
